(** * dabikingofmath: the answer and mission stores of the tutoring frontend

    A shallow embedding of the two Zustand stores of the frontend
    ([store/answerStore] and [store/missionStore]) together with the
    part of [services/api.ts] and [types/index.ts] they rely on.

    The stores are asynchronous JavaScript: every action is a sequence of
    synchronous store updates interrupted by [await]s on the API client.
    Actions are embedded as terms of a small free monad [Async] whose
    nodes are exactly what the source does: read the store ([get()]),
    update it ([set(...)]), perform a browser effect
    ([URL.revokeObjectURL], [setTimeout], [console.error]), await a
    request of the API client, return or throw.  Two interpreters give
    the terms their meaning: [run] executes an action up to its first
    [await] (one turn of the event loop), [exec] executes it to the end
    against a backend. *)

From stdpp Require Import base list strings pretty.
From Stdlib Require Import ZArith Lia.

Open Scope string_scope.
Open Scope list_scope.
Open Scope Z_scope.

(** ** Data model ([types/index.ts]) *)

(** A [File] of the browser: opaque to the stores, which only pass it on. *)
Record File := mkFile { file_name : string; file_size : Z }.

Record Problem := mkProblem {
  problem_ident : Z;
  title : string;
  content : string;
  solution : option string;
  difficulty_level : Z;
  topic : string;
  subtopic : option string;
  estimated_time : option Z;
  keywords : option (list string)
}.

Inductive MissionStatus := PENDING | IN_PROGRESS | COMPLETED.

Inductive MissionType := DAILY | REVIEW | CHALLENGE | ASSESSMENT.

Record Mission := mkMission {
  mission_ident : Z;
  mission_user_id : Z;
  mission_name : string;
  mission_description : option string;
  mission_status : MissionStatus;
  mission_total_problems : Z;
  mission_completed_problems : Z;
  target_score : option Z;
  actual_score : option Z;
  start_time : option string;
  end_time : option string;
  problems : option (list Problem)
}.

Record MissionProgress := mkMissionProgress {
  mission_id : Z;
  total_problems : Z;
  completed_problems : Z;
  current_problem : option Problem;
  progress_percentage : Z;
  estimated_remaining_time : option Z
}.

(** The [score] field of an answer as it arrives in the JSON body: the
    key may be missing ([undefined] after parsing), hold [null], or hold
    a number.  The store tests it with [=== null]. *)
Inductive Score := ScoreUndefined | ScoreNull | ScoreNumber (n : Z).

Definition score_is_null (s : Score) : bool :=
  match s with ScoreNull => true | _ => false end.

Record Answer := mkAnswer {
  answer_ident : Z;
  answer_user_id : Z;
  answer_mission_id : Z;
  answer_problem_id : Z;
  answer_images : list string;
  extracted_text : option string;
  extracted_markdown : option string;
  score : Score;
  ai_feedback : option string;
  key_concepts_identified : list string;
  mistakes_detected : list string;
  time_spent : option Z;
  submitted_at : option string;
  scored_at : option string
}.

Record AnswerResult := mkAnswerResult {
  result_answer_id : Z;
  result_score : Z;
  feedback : string;
  concepts_learned : list string;
  areas_for_improvement : list string;
  next_recommendations : list string
}.

Record AppError := mkAppError { message : string; code : option string }.

Record CapturedImage := mkCapturedImage {
  file : File;
  preview : string;
  timestamp : Z
}.

(** The response envelope [APIResponse<T>]. *)
Record APIResponse (T : Type) := mkAPIResponse {
  success : bool;
  resp_message : string;
  data : option T
}.
Arguments mkAPIResponse {T} _ _ _.
Arguments success {T} _.
Arguments resp_message {T} _.
Arguments data {T} _.

(** [response.success && response.data]: the data when the envelope
    reports success and carries a payload (payloads are objects, hence
    truthy), nothing otherwise. *)
Definition success_and_data {T} (response : APIResponse T) : option T :=
  if success response then data response else None.

(** [s || fallback] on strings: the empty string is falsy. *)
Definition or_default (s fallback : string) : string :=
  if decide (s = "") then fallback else s.

(** ** The API client ([services/api.ts]) *)

Record CurrentMissionData := mkCurrentMissionData {
  cm_mission : Mission;
  cm_current_problem : Problem;
  cm_progress : MissionProgress
}.

Record StartMissionData := mkStartMissionData {
  sm_mission : Mission;
  first_problem : Problem
}.

Record CompleteMissionData := mkCompleteMissionData {
  done_mission : Mission;
  completed : bool
}.

Record SubmitAnswerData := mkSubmitAnswerData {
  answer_id : Z;
  submit_status : string;
  image_count : Z
}.

Record AnswerResultData := mkAnswerResultData {
  result : AnswerResult;
  answer : Answer
}.

Record AddImagesData := mkAddImagesData {
  added_answer_id : Z;
  total_images : Z;
  added_images : Z
}.

(** The methods of [ApiService] the stores call, indexed by the payload
    type of their envelope. *)
Inductive Request : Type -> Type :=
| GetCurrentMission : Request CurrentMissionData
| StartMission (missionType : MissionType) : Request StartMissionData
| GetMissionProgress (missionId : Z) : Request MissionProgress
| CompleteMission (missionId : Z) : Request CompleteMissionData
| GetNextProblem (missionId : Z) : Request Problem
| SubmitAnswer (missionId problemId : Z) (images : list File)
    (timeSpent : option Z) : Request SubmitAnswerData
| ProcessAnswer (answerId : Z) : Request unit
| GetAnswerResult (answerId : Z) : Request AnswerResultData
| AddAnswerImages (answerId : Z) (images : list File) : Request AddImagesData.

(** A thrown JavaScript value: an [Error] with its message, or anything
    else ([error instanceof Error] tells them apart). *)
Inductive Thrown := ErrorObj (msg : string) | NonError.

Definition error_message (error : Thrown) (fallback : string) : string :=
  match error with ErrorObj msg => msg | NonError => fallback end.

(** What awaiting a request gives: the parsed envelope, or the exception
    [request]/[uploadRequest] throw on a transport failure or a non-2xx
    status. *)
Inductive ApiOutcome (T : Type) :=
| Fulfilled (response : APIResponse T)
| Failed (error : Thrown).
Arguments Fulfilled {T} _.
Arguments Failed {T} _.

Definition Backend := forall T, Request T -> ApiOutcome T.

(** ** Effects and the [Async] monad *)

(** The callback handed to [setTimeout]: the only one in the stores is
    [() => get().getAnswerResult(answerId)]. *)
Inductive TimerTask := PollAnswerResult (answerId : Z).

Inductive Effect :=
| NetCall {T} (req : Request T)
| RevokeObjectURL (url : string)
| SetTimeout (task : TimerTask) (ms : Z)
| ConsoleError (label : string) (error : Thrown).

Definition is_revoke (url : string) (e : Effect) : bool :=
  match e with RevokeObjectURL u => bool_decide (u = url) | _ => false end.

Definition timers_of (es : list Effect) : list (TimerTask * Z) :=
  omap (fun e => match e with SetTimeout t ms => Some (t, ms) | _ => None end) es.

Inductive Async (St A : Type) : Type :=
| Resolve (a : A)
| Reject (error : Thrown)
| GetState (k : St -> Async St A)
| SetState (f : St -> St) (k : Async St A)
| Perform (e : Effect) (k : Async St A)
| Await {T} (req : Request T) (k : ApiOutcome T -> Async St A).
Arguments Resolve {St A} _.
Arguments Reject {St A} _.
Arguments GetState {St A} _.
Arguments SetState {St A} _ _.
Arguments Perform {St A} _ _.
Arguments Await {St A T} _ _.

Inductive Settled (A : Type) := Resolved (a : A) | Rejected (error : Thrown).
Arguments Resolved {A} _.
Arguments Rejected {A} _.

Inductive Turn (St A : Type) :=
| Settle (r : Settled A)
| Pending {T} (req : Request T) (k : ApiOutcome T -> Async St A).
Arguments Settle {St A} _.
Arguments Pending {St A T} _ _.

Record Run (St R : Type) := mkRun {
  final : St;
  trace : list Effect;
  outcome : R
}.
Arguments mkRun {St R} _ _ _.
Arguments final {St R} _.
Arguments trace {St R} _.
Arguments outcome {St R} _.

Definition logged {St R} (e : Effect) (r : Run St R) : Run St R :=
  mkRun (final r) (e :: trace r) (outcome r).

Section Interpreters.
Context {St : Type}.

Fixpoint bind {A B} (m : Async St A) (f : A -> Async St B) : Async St B :=
  match m with
  | Resolve a => f a
  | Reject error => Reject error
  | GetState k => GetState (fun st => bind (k st) f)
  | SetState g k => SetState g (bind k f)
  | Perform e k => Perform e (bind k f)
  | Await req k => Await req (fun o => bind (k o) f)
  end.

(** [try { m } catch (error) { handler error }] *)
Fixpoint try_catch {A} (m : Async St A) (handler : Thrown -> Async St A)
  : Async St A :=
  match m with
  | Resolve a => Resolve a
  | Reject error => handler error
  | GetState k => GetState (fun st => try_catch (k st) handler)
  | SetState g k => SetState g (try_catch k handler)
  | Perform e k => Perform e (try_catch k handler)
  | Await req k => Await req (fun o => try_catch (k o) handler)
  end.

Definition get : Async St St := GetState Resolve.
Definition set (f : St -> St) : Async St unit := SetState f (Resolve tt).
Definition perform (e : Effect) : Async St unit := Perform e (Resolve tt).
Definition throw {A} (error : Thrown) : Async St A := Reject error.

(** [await apiService.method(...)]: the envelope, or the exception
    rethrown at the [await]. *)
Definition await {T} (req : Request T) : Async St (APIResponse T) :=
  Await req (fun o =>
    match o with
    | Fulfilled response => Resolve response
    | Failed error => Reject error
    end).

(** One turn of the event loop: the action runs until it settles or
    reaches an [await], where its request has been sent. *)
Fixpoint run {A} (m : Async St A) (st : St) : Run St (Turn St A) :=
  match m with
  | Resolve a => mkRun st [] (Settle (Resolved a))
  | Reject error => mkRun st [] (Settle (Rejected error))
  | GetState k => run (k st) st
  | SetState f k => run k (f st)
  | Perform e k => logged e (run k st)
  | Await req k => mkRun st [NetCall req] (Pending req k)
  end.

(** The action run to its end, every request answered by [backend]
    at once (no other task interleaves). *)
Fixpoint exec {A} (backend : Backend) (m : Async St A) (st : St)
  : Run St (Settled A) :=
  match m with
  | Resolve a => mkRun st [] (Resolved a)
  | Reject error => mkRun st [] (Rejected error)
  | GetState k => exec backend (k st) st
  | SetState f k => exec backend k (f st)
  | Perform e k => logged e (exec backend k st)
  | Await req k => logged (NetCall req) (exec backend (k (backend _ req)) st)
  end.

(** Resuming a turn: a pending request receives its outcome and the
    continuation runs its next turn. *)
Definition resume {A} (backend : Backend) (t : Turn St A) (st : St)
  : Run St (Turn St A) :=
  match t with
  | Settle r => mkRun st [] (Settle r)
  | Pending req k => run (k (backend _ req)) st
  end.

Definition in_flight {A} (t : Turn St A) : bool :=
  match t with Pending _ _ => true | Settle _ => false end.

(** The value a turn returned, if it returned. *)
Definition returned {A} (t : Turn St A) : option A :=
  match t with Settle (Resolved a) => Some a | _ => None end.
End Interpreters.

#[global] Instance async_ret {St} : MRet (Async St) := fun A => @Resolve St A.
#[global] Instance async_bind {St} : MBind (Async St) :=
  fun A B f m => bind m f.

(** [forEach] over an array, for its effects. *)
Fixpoint for_each {St A} (f : A -> Async St unit) (l : list A) : Async St unit :=
  match l with
  | [] => Resolve tt
  | x :: l' => f x ;; for_each f l'
  end.

(** [Array.prototype.filter] with the two-argument callback
    [(element, index) => ...]. *)
Fixpoint filter_from {A} (keep : A -> nat -> bool) (i : nat) (l : list A)
  : list A :=
  match l with
  | [] => []
  | x :: l' =>
      if keep x i then x :: filter_from keep (S i) l'
      else filter_from keep (S i) l'
  end.

Definition js_filter {A} (keep : A -> nat -> bool) (l : list A) : list A :=
  filter_from keep 0 l.

(** ** The answer store ([store/answerStore]) *)

Module AnswerStore.

Record AnswerState := mkAnswerState {
  currentAnswer : option Answer;
  answerResult : option AnswerResult;
  capturedImages : list CapturedImage;
  isSubmitting : bool;
  isProcessing : bool;
  error : option AppError
}.

Definition initial : AnswerState := mkAnswerState None None [] false false None.

(** The partial updates handed to [set]. *)
Definition with_currentAnswer v (s : AnswerState) :=
  mkAnswerState v (answerResult s) (capturedImages s) (isSubmitting s)
    (isProcessing s) (error s).
Definition with_answerResult v (s : AnswerState) :=
  mkAnswerState (currentAnswer s) v (capturedImages s) (isSubmitting s)
    (isProcessing s) (error s).
Definition with_capturedImages v (s : AnswerState) :=
  mkAnswerState (currentAnswer s) (answerResult s) v (isSubmitting s)
    (isProcessing s) (error s).
Definition with_isSubmitting v (s : AnswerState) :=
  mkAnswerState (currentAnswer s) (answerResult s) (capturedImages s) v
    (isProcessing s) (error s).
Definition with_isProcessing v (s : AnswerState) :=
  mkAnswerState (currentAnswer s) (answerResult s) (capturedImages s)
    (isSubmitting s) v (error s).
Definition with_error v (s : AnswerState) :=
  mkAnswerState (currentAnswer s) (answerResult s) (capturedImages s)
    (isSubmitting s) (isProcessing s) v.

Definition Action := Async AnswerState.

Definition addCapturedImage (image : CapturedImage) : Action unit :=
  set (fun state =>
    with_error None
      (with_capturedImages (capturedImages state ++ [image]) state)).

Definition removeCapturedImage (index : Z) : Action unit :=
  set (fun state =>
    with_capturedImages
      (js_filter (fun _ i => negb (Z.of_nat i =? index)%Z)
         (capturedImages state))
      state).

Definition clearCapturedImages : Action unit :=
  st ← get;
  for_each (fun image => perform (RevokeObjectURL (preview image)))
    (capturedImages st) ;;
  set (with_capturedImages []).

Definition images_required : string := "답안 이미지가 필요합니다.".

Definition submitAnswer (missionId problemId : Z) (timeSpent : option Z)
  : Action Z :=
  st ← get;
  let capturedImages := capturedImages st in
  if decide (length capturedImages = 0%nat) then
    let error := mkAppError images_required None in
    set (with_error (Some error)) ;;
    throw (ErrorObj (message error))
  else
    set (fun s => with_error None (with_isSubmitting true s)) ;;
    try_catch
      (let imageFiles := map file capturedImages in
       response ← await (SubmitAnswer missionId problemId imageFiles timeSpent);
       match success_and_data response with
       | Some d =>
           let answerId := answer_id d in
           set (with_isSubmitting false) ;;
           mret answerId
       | None =>
           throw (ErrorObj
             (or_default (resp_message response) "답안 제출에 실패했습니다."))
       end)
      (fun error =>
         let errorMessage :=
           error_message error "답안 제출 중 오류가 발생했습니다." in
         set (fun s =>
           with_error (Some (mkAppError errorMessage None))
             (with_isSubmitting false s)) ;;
         throw error).

Definition getAnswerResult (answerId : Z) : Action unit :=
  set (with_error None) ;;
  try_catch
    (response ← await (GetAnswerResult answerId);
     match success_and_data response with
     | Some d =>
         set (fun s =>
           with_isProcessing false
             (with_answerResult (Some (result d))
                (with_currentAnswer (Some (answer d)) s))) ;;
         if score_is_null (score (answer d)) then
           set (with_isProcessing true) ;;
           perform (SetTimeout (PollAnswerResult answerId) 5000)
         else mret tt
     | None =>
         throw (ErrorObj
           (or_default (resp_message response) "답안 결과 조회에 실패했습니다."))
     end)
    (fun error =>
       let errorMessage :=
         error_message error "답안 결과 조회 중 오류가 발생했습니다." in
       set (fun s =>
         with_isProcessing false
           (with_error (Some (mkAppError errorMessage None)) s)) ;;
       throw error).

Definition processAnswer (answerId : Z) : Action unit :=
  set (fun s => with_error None (with_isProcessing true s)) ;;
  try_catch
    (response ← await (ProcessAnswer answerId);
     if success response then
       set (with_isProcessing false) ;;
       getAnswerResult answerId
     else
       throw (ErrorObj
         (or_default (resp_message response) "AI 처리 요청에 실패했습니다.")))
    (fun error =>
       let errorMessage :=
         error_message error "AI 처리 중 오류가 발생했습니다." in
       set (fun s =>
         with_error (Some (mkAppError errorMessage None))
           (with_isProcessing false s)) ;;
       throw error).

Definition addAnswerImages (answerId : Z) (images : list File) : Action unit :=
  set (fun s => with_error None (with_isSubmitting true s)) ;;
  try_catch
    (response ← await (AddAnswerImages answerId images);
     if success response then
       set (with_isSubmitting false) ;;
       getAnswerResult answerId
     else
       throw (ErrorObj
         (or_default (resp_message response) "이미지 추가에 실패했습니다.")))
    (fun error =>
       let errorMessage :=
         error_message error "이미지 추가 중 오류가 발생했습니다." in
       set (fun s =>
         with_error (Some (mkAppError errorMessage None))
           (with_isSubmitting false s)) ;;
       throw error).

Definition reset : Action unit :=
  st ← get;
  for_each (fun image => perform (RevokeObjectURL (preview image)))
    (capturedImages st) ;;
  set (fun _ => mkAnswerState None None [] false false None).

Definition clearError : Action unit := set (with_error None).

End AnswerStore.

(** ** The mission store ([store/missionStore]) *)

Module MissionStore.

Record MissionState := mkMissionState {
  currentMission : option Mission;
  currentProblem : option Problem;
  missionProgress : option MissionProgress;
  isLoading : bool;
  error : option AppError;
  timeSpent : Z;
  startTime : option Z
}.

Definition initial : MissionState :=
  mkMissionState None None None false None 0 None.

Definition with_currentMission v (s : MissionState) :=
  mkMissionState v (currentProblem s) (missionProgress s) (isLoading s)
    (error s) (timeSpent s) (startTime s).
Definition with_currentProblem v (s : MissionState) :=
  mkMissionState (currentMission s) v (missionProgress s) (isLoading s)
    (error s) (timeSpent s) (startTime s).
Definition with_missionProgress v (s : MissionState) :=
  mkMissionState (currentMission s) (currentProblem s) v (isLoading s)
    (error s) (timeSpent s) (startTime s).
Definition with_isLoading v (s : MissionState) :=
  mkMissionState (currentMission s) (currentProblem s) (missionProgress s) v
    (error s) (timeSpent s) (startTime s).
Definition with_error v (s : MissionState) :=
  mkMissionState (currentMission s) (currentProblem s) (missionProgress s)
    (isLoading s) v (timeSpent s) (startTime s).
Definition with_timeSpent v (s : MissionState) :=
  mkMissionState (currentMission s) (currentProblem s) (missionProgress s)
    (isLoading s) (error s) v (startTime s).
Definition with_startTime v (s : MissionState) :=
  mkMissionState (currentMission s) (currentProblem s) (missionProgress s)
    (isLoading s) (error s) (timeSpent s) v.

Definition Action := Async MissionState.

Definition fetchCurrentMission : Action unit :=
  set (fun s => with_error None (with_isLoading true s)) ;;
  try_catch
    (response ← await GetCurrentMission;
     match success_and_data response with
     | Some d =>
         set (fun s =>
           with_isLoading false
             (with_missionProgress (Some (cm_progress d))
                (with_currentProblem (Some (cm_current_problem d))
                   (with_currentMission (Some (cm_mission d)) s))))
     | None =>
         set (fun s =>
           with_isLoading false
             (with_missionProgress None
                (with_currentProblem None (with_currentMission None s))))
     end)
    (fun error =>
       let errorMessage :=
         error_message error "미션 조회 중 오류가 발생했습니다." in
       set (fun s =>
         with_error (Some (mkAppError errorMessage None))
           (with_isLoading false s)) ;;
       throw error).

Definition startNewMission (missionType : option MissionType) : Action unit :=
  let missionType := default DAILY missionType in
  set (fun s => with_error None (with_isLoading true s)) ;;
  try_catch
    (response ← await (StartMission missionType);
     match success_and_data response with
     | Some d =>
         let mission := sm_mission d in
         let first_problem := first_problem d in
         let progress :=
           {| mission_id := mission_ident mission;
              total_problems := mission_total_problems mission;
              completed_problems := mission_completed_problems mission;
              current_problem := Some first_problem;
              progress_percentage := 0;
              estimated_remaining_time := None |} in
         set (fun s =>
           with_isLoading false
             (with_missionProgress (Some progress)
                (with_currentProblem (Some first_problem)
                   (with_currentMission (Some mission) s))))
     | None =>
         throw (ErrorObj
           (or_default (resp_message response) "미션 시작에 실패했습니다."))
     end)
    (fun error =>
       let errorMessage :=
         error_message error "미션 시작 중 오류가 발생했습니다." in
       set (fun s =>
         with_error (Some (mkAppError errorMessage None))
           (with_isLoading false s)) ;;
       throw error).

Definition getCurrentProblem : Action unit :=
  st ← get;
  match currentMission st with
  | None => mret tt
  | Some currentMission =>
      try_catch
        (response ← await (GetNextProblem (mission_ident currentMission));
         match success_and_data response with
         | Some d => set (with_currentProblem (Some d))
         | None => set (with_currentProblem None)
         end)
        (fun error =>
           perform (ConsoleError "다음 문제 조회 실패:" error) ;;
           let errorMessage :=
             error_message error "문제 조회 중 오류가 발생했습니다." in
           set (with_error (Some (mkAppError errorMessage None))))
  end.

Definition updateProgress : Action unit :=
  st ← get;
  match currentMission st with
  | None => mret tt
  | Some currentMission =>
      try_catch
        (response ← await (GetMissionProgress (mission_ident currentMission));
         match success_and_data response with
         | Some d =>
             set (with_missionProgress (Some d)) ;;
             match current_problem d with
             | Some p => set (with_currentProblem (Some p))
             | None => set (with_currentProblem None)
             end
         | None => mret tt
         end)
        (fun error => perform (ConsoleError "진행 상황 업데이트 실패:" error))
  end.

Definition not_finished : string := "아직 완료되지 않은 문제가 있습니다.".

Definition completeMission : Action unit :=
  st ← get;
  match currentMission st with
  | None => mret tt
  | Some currentMission =>
      set (fun s => with_error None (with_isLoading true s)) ;;
      try_catch
        (response ← await (CompleteMission (mission_ident currentMission));
         match success_and_data response with
         | Some d =>
             if completed d then
               set (fun s =>
                 with_isLoading false
                   (with_currentProblem None
                      (with_currentMission (Some (done_mission d)) s))) ;;
               updateProgress
             else
               set (with_isLoading false) ;;
               throw (ErrorObj not_finished)
         | None => mret tt
         end)
        (fun error =>
           let errorMessage :=
             error_message error "미션 완료 처리 중 오류가 발생했습니다." in
           set (fun s =>
             with_error (Some (mkAppError errorMessage None))
               (with_isLoading false s)) ;;
           throw error)
  end.

(** [if (startTime)]: [null] and [0] are falsy. *)
Definition truthy (startTime : option Z) : option Z :=
  match startTime with
  | Some t => if (t =? 0)%Z then None else Some t
  | None => None
  end.

(** The timer actions read the clock once; [now] is the value
    [Date.now()] returns there, in milliseconds.  [Math.floor (x / 1000)]
    on integral millisecond counts is [Z.div], which rounds down. *)
Definition startTimer (now : Z) : Action unit :=
  set (with_startTime (Some now)).

Definition stopTimer (now : Z) : Action unit :=
  st ← get;
  match truthy (startTime st) with
  | Some startTime =>
      let elapsed := (now - startTime) / 1000 in
      set (fun state =>
        with_startTime None (with_timeSpent (timeSpent state + elapsed) state))
  | None => mret tt
  end.

Definition resetTimer : Action unit :=
  set (fun s => with_startTime None (with_timeSpent 0 s)).

Definition getTimeSpent (now : Z) : Action Z :=
  st ← get;
  match truthy (startTime st) with
  | Some startTime =>
      let currentElapsed := (now - startTime) / 1000 in
      mret (timeSpent st + currentElapsed)
  | None => mret (timeSpent st)
  end.

Definition reset : Action unit :=
  set (fun _ => mkMissionState None None None false None 0 None).

Definition clearError : Action unit := set (with_error None).

End MissionStore.

(** ** Scenarios: call sequences, polling, sample data *)

Module Scenario.
Import AnswerStore.

(** A call of one of the two staging actions. *)
Inductive ImageCall := Add (image : CapturedImage) | Remove (index : Z).

Definition call (c : ImageCall) : Action unit :=
  match c with
  | Add image => addCapturedImage image
  | Remove index => removeCapturedImage index
  end.

Definition calls (cs : list ImageCall) : Action unit := for_each call cs.

Definition is_add (c : ImageCall) : bool :=
  match c with Add _ => true | Remove _ => false end.

Definition additions (cs : list ImageCall) : Z :=
  Z.of_nat (length (List.filter is_add cs)).

Definition removals (cs : list ImageCall) : Z :=
  Z.of_nat (length (List.filter (fun c => negb (is_add c)) cs)).

(** Every [Remove] of the sequence names a position that is staged at
    the time of its call, the store being the one the earlier calls
    left. *)
Fixpoint removals_in_range (cs : list ImageCall) (st : AnswerState) : Prop :=
  match cs with
  | [] => True
  | c :: cs' =>
      match c with
      | Add _ => True
      | Remove index =>
          0 <= index < Z.of_nat (length (capturedImages st))
      end
      /\ removals_in_range cs' (final (run (call c) st))
  end.

(** How often [url] is released in a trace, and how many staged images
    carry it as their preview. *)
Definition releases (url : string) (es : list Effect) : nat :=
  length (List.filter (is_revoke url) es).

Definition staged_with (url : string) (images : list CapturedImage) : nat :=
  length (List.filter (fun image => bool_decide (preview image = url)) images).

(** The callback of a timer. *)
Definition fire (task : TimerTask) : Action unit :=
  match task with PollAnswerResult answerId => getAnswerResult answerId end.

(** A backend that answers the result request with [o]. *)
Definition answering (o : ApiOutcome AnswerResultData) : Backend :=
  fun T req =>
    match req in Request T return ApiOutcome T with
    | GetAnswerResult _ => o
    | _ => Failed (ErrorObj "unexpected request")
    end.

(** The fetch found the answer without a score. *)
Definition unscored (o : ApiOutcome AnswerResultData) : bool :=
  match o with
  | Fulfilled response =>
      match success_and_data response with
      | Some d => score_is_null (score (answer d))
      | None => false
      end
  | Failed _ => false
  end.

Record Polling := mkPolling {
  store : AnswerState;
  log : list Effect;
  waiting : list (TimerTask * Z)
}.

(** The timers of the queue fire in turn; the n-th fetch receives the
    n-th outcome of [script], and whatever timer a callback sets joins
    the queue.  The loop stops when the queue is empty or the script
    is used up. *)
Fixpoint drain (script : list (ApiOutcome AnswerResultData))
    (queue : list (TimerTask * Z)) (st : AnswerState) : Polling :=
  match script, queue with
  | o :: script', (task, _) :: queue' =>
      let r := exec (answering o) (fire task) st in
      let rest := drain script' (queue' ++ timers_of (trace r)) (final r) in
      mkPolling (store rest) (trace r ++ log rest) (waiting rest)
  | _, _ => mkPolling st [] queue
  end.

(** A call of [getAnswerResult] and the polling it sets off. *)
Definition poll_session (answerId : Z)
    (script : list (ApiOutcome AnswerResultData)) (st : AnswerState)
  : Polling :=
  match script with
  | [] => mkPolling st [] []
  | o :: script' =>
      let r := exec (answering o) (getAnswerResult answerId) st in
      let rest := drain script' (timers_of (trace r)) (final r) in
      mkPolling (store rest) (trace r ++ log rest) (waiting rest)
  end.

(** One round of an unfinished poll: the fetch and the timer it sets. *)
Definition poll_round (answerId : Z) : list Effect :=
  [NetCall (GetAnswerResult answerId);
   SetTimeout (PollAnswerResult answerId) 5000].

(** Sample data. *)
Definition photo (url : string) : CapturedImage :=
  mkCapturedImage (mkFile "page.jpg" 2048) url 1700000000000.

Definition a_problem (n : Z) : Problem :=
  mkProblem n "Fractions" "1/2 + 1/3" None 3 "arithmetic" None None None.

Definition a_mission (done total : Z) (status : MissionStatus) : Mission :=
  mkMission 7 1 "daily" None status total done None None None None None.

Definition an_answer (s : Score) : Answer :=
  mkAnswer 42 1 7 3 ["uploads/page.jpg"] None None s None [] [] None None None.

Definition a_result (n : Z) : AnswerResult :=
  mkAnswerResult 42 n "good" [] [] [].

Definition graded (s : Score) (n : Z) : ApiOutcome AnswerResultData :=
  Fulfilled (mkAPIResponse true "ok"
    (Some (mkAnswerResultData (a_result n) (an_answer s)))).

(** A backend for the mission requests, one outcome per method. *)
Definition mission_backend
    (current : ApiOutcome CurrentMissionData)
    (started : ApiOutcome StartMissionData)
    (progress : ApiOutcome MissionProgress)
    (finished : ApiOutcome CompleteMissionData)
    (next : ApiOutcome Problem) : Backend :=
  fun T req =>
    match req in Request T return ApiOutcome T with
    | GetCurrentMission => current
    | StartMission _ => started
    | GetMissionProgress _ => progress
    | CompleteMission _ => finished
    | GetNextProblem _ => next
    | _ => Failed (ErrorObj "unexpected request")
    end.

(** A backend that stores every upload as the answer [answerId]. *)
Definition accepting (answerId : Z) : Backend :=
  fun T req =>
    match req in Request T return ApiOutcome T with
    | SubmitAnswer _ _ images _ =>
        Fulfilled (mkAPIResponse true "submitted"
          (Some (mkSubmitAnswerData answerId "pending"
                   (Z.of_nat (length images)))))
    | _ => Failed (ErrorObj "unexpected request")
    end.

Definition offline : Backend :=
  fun T _ => Failed (ErrorObj "Failed to fetch").

End Scenario.

(** ** The upload forms of the API client ([services/api.ts]) *)

Module ApiClient.

(** A part of a [FormData]: a text field or a file. *)
Inductive FormValue := FormText (text : string) | FormFile (f : File).

Definition FormData := list (string * FormValue).

(** [formData.append(name, value)] *)
Definition append (name : string) (value : FormValue) (formData : FormData)
  : FormData :=
  formData ++ [(name, value)].

(** The body [submitAnswer] builds.  Numbers are written with
    [toString()], in decimal for the integers at hand. *)
Definition submitAnswer_form (missionId problemId : Z) (images : list File)
    (timeSpent : option Z) : FormData :=
  let formData := [] in
  let formData := append "mission_id" (FormText (pretty missionId)) formData in
  let formData := append "problem_id" (FormText (pretty problemId)) formData in
  let formData :=
    match timeSpent with
    | Some t => append "time_spent" (FormText (pretty t)) formData
    | None => formData
    end in
  fold_left (fun formData image => append "images" (FormFile image) formData)
    images formData.

(** The body [addAnswerImages] builds. *)
Definition addAnswerImages_form (images : list File) : FormData :=
  fold_left (fun formData image => append "images" (FormFile image) formData)
    images [].

(** The body that travels with a request, for the two uploads. *)
Definition form_of {T} (req : Request T) : option FormData :=
  match req with
  | SubmitAnswer missionId problemId images timeSpent =>
      Some (submitAnswer_form missionId problemId images timeSpent)
  | AddAnswerImages _ images => Some (addAnswerImages_form images)
  | _ => None
  end.

(** The forms uploaded in the course of a run, in order. *)
Definition forms_sent (es : list Effect) : list FormData :=
  omap (fun e => match e with NetCall req => form_of req | _ => None end) es.

(** [formData.getAll(name)], as the receiving side reads a form. *)
Definition get_all (name : string) (formData : FormData) : list FormValue :=
  omap (fun part => if decide (part.1 = name) then Some part.2 else None)
    formData.

End ApiClient.

(** ** The pages that drive the stores *)

(** A page holds more than one store; an action of one store runs on
    the page's state through the store's place in it. *)
Section Lifting.
Context {S1 S2 : Type} (proj : S2 -> S1) (inj : S1 -> S2 -> S2).

Fixpoint lift {A} (m : Async S1 A) : Async S2 A :=
  match m with
  | Resolve a => Resolve a
  | Reject error => Reject error
  | GetState k => GetState (fun s => lift (k (proj s)))
  | SetState f k => SetState (fun s => inj (f (proj s)) s) (lift k)
  | Perform e k => Perform e (lift k)
  | Await req k => Await req (fun o => lift (k o))
  end.
End Lifting.

(** [pages/Results.tsx] *)
Module ResultsPage.

Definition getScoreColor (score : Z) : string :=
  if 90 <=? score then "text-green-400"
  else if 70 <=? score then "text-yellow-400"
  else "text-red-400".

Definition getScoreMessage (score : Z) : string :=
  if 90 <=? score then "훌륭해요! 🎉"
  else if 70 <=? score then "잘했어요! 👍"
  else if 50 <=? score then "좋은 시도예요! 💪"
  else "다시 한번 도전해봐요! 📚".

(** What the component returns: one of its four screens. *)
Inductive View :=
| InvalidAccess
| Grading
| GradingFailed (message : string)
| Graded (answerResult : AnswerResult).

(** The chain of early returns of the component, on the route
    parameter and the answer store of the render. *)
Definition render (answerId : option string) (st : AnswerStore.AnswerState)
  : View :=
  match answerId with
  | None => InvalidAccess
  | Some param =>
      if decide (param = "") then InvalidAccess
      else
        match AnswerStore.isProcessing st, AnswerStore.answerResult st with
        | false, Some answerResult =>
            match AnswerStore.error st with
            | Some error => GradingFailed (message error)
            | None => Graded answerResult
            end
        | _, _ => Grading
        end
  end.

(** [checkNextProblem], with the [hasNextProblem] it sets ([None] when
    it sets nothing). *)
Definition checkNextProblem (currentMission : option Mission)
  : Async MissionStore.MissionState (option bool) :=
  match currentMission with
  | Some _ =>
      try_catch
        (MissionStore.updateProgress ;;
         MissionStore.getCurrentProblem ;;
         mret (Some true))
        (fun _ => mret (Some false))
  | None => mret None
  end.

(** [handleCompleteMission], with the path it navigates to. *)
Definition handleCompleteMission (currentMission : option Mission)
  : Async MissionStore.MissionState (option string) :=
  match currentMission with
  | Some _ =>
      try_catch
        (MissionStore.completeMission ;; mret (Some "/dashboard"))
        (fun error =>
           perform (ConsoleError "Failed to complete mission:" error) ;;
           mret None)
  | None => mret None
  end.

End ResultsPage.

(** [pages/Mission.tsx] *)
Module MissionPage.

Record PageState := mkPageState {
  missionStore : MissionStore.MissionState;
  answerStore : AnswerStore.AnswerState;
  showSubmitConfirm : bool;
  isSubmittingAnswer : bool
}.

Definition with_missionStore v (s : PageState) :=
  mkPageState v (answerStore s) (showSubmitConfirm s) (isSubmittingAnswer s).
Definition with_answerStore v (s : PageState) :=
  mkPageState (missionStore s) v (showSubmitConfirm s) (isSubmittingAnswer s).
Definition with_showSubmitConfirm v (s : PageState) :=
  mkPageState (missionStore s) (answerStore s) v (isSubmittingAnswer s).
Definition with_isSubmittingAnswer v (s : PageState) :=
  mkPageState (missionStore s) (answerStore s) (showSubmitConfirm s) v.

Definition on_mission {A} (m : Async MissionStore.MissionState A)
  : Async PageState A :=
  lift missionStore with_missionStore m.

Definition on_answers {A} (m : Async AnswerStore.AnswerState A)
  : Async PageState A :=
  lift answerStore with_answerStore m.

(** The effect on a change of problem: its body and its cleanup.
    [currentProblem] is the problem of the render, [now] the clock
    reading of [startTimer] or [stopTimer]. *)
Definition problemEffect (currentProblem : option Problem) (now : Z)
  : Async PageState unit :=
  match currentProblem with
  | Some _ =>
      on_mission MissionStore.resetTimer ;;
      on_mission (MissionStore.startTimer now) ;;
      on_answers AnswerStore.reset
  | None => mret tt
  end.

Definition problemEffect_cleanup (now : Z) : Async PageState unit :=
  on_mission (MissionStore.stopTimer now).

(** [handleSubmitAnswer], with the path it navigates to.  The mission,
    the problem and the staged images are those of the render; the
    clock is read by [stopTimer], by [getTimeSpent] and, on failure, by
    [startTimer]. *)
Definition handleSubmitAnswer (currentMission : option Mission)
    (currentProblem : option Problem) (capturedImages : list CapturedImage)
    (t_stop t_read t_restart : Z) : Async PageState (option string) :=
  match currentMission, currentProblem with
  | Some currentMission, Some currentProblem =>
      if decide (length capturedImages = 0%nat) then mret None
      else
        set (with_isSubmittingAnswer true) ;;
        on_mission (MissionStore.stopTimer t_stop) ;;
        visited ←
          try_catch
            (timeSpent ← on_mission (MissionStore.getTimeSpent t_read);
             answerId ←
               on_answers
                 (AnswerStore.submitAnswer (mission_ident currentMission)
                    (problem_ident currentProblem) (Some timeSpent));
             on_mission MissionStore.updateProgress ;;
             mret (Some ("/results/" +:+ pretty answerId)))
            (fun error =>
               perform (ConsoleError "Failed to submit answer:" error) ;;
               on_mission (MissionStore.startTimer t_restart) ;;
               mret None);
        set (fun s => with_showSubmitConfirm false (with_isSubmittingAnswer false s)) ;;
        mret visited
  | _, _ => mret None
  end.

(** [handleQuitMission] *)
Definition handleQuitMission (now : Z) : Async PageState string :=
  on_mission (MissionStore.stopTimer now) ;;
  mret "/dashboard".

End MissionPage.

(** [pages/Dashboard.tsx] *)
Module DashboardPage.

Record PageState := mkPageState {
  missionStore : MissionStore.MissionState;
  isStartingMission : bool
}.

Definition with_missionStore v (s : PageState) :=
  mkPageState v (isStartingMission s).
Definition with_isStartingMission v (s : PageState) :=
  mkPageState (missionStore s) v.

Definition on_mission {A} (m : Async MissionStore.MissionState A)
  : Async PageState A :=
  lift missionStore with_missionStore m.

(** [handleStartMission], with the path it navigates to;
    [currentMission] is the mission of the render the handler was
    created in. *)
Definition handleStartMission (currentMission : option Mission)
    (missionType : option MissionType) : Async PageState (option string) :=
  let missionType := default DAILY missionType in
  set (with_isStartingMission true) ;;
  visited ←
    try_catch
      (on_mission (MissionStore.startNewMission (Some missionType)) ;;
       match currentMission with
       | Some currentMission =>
           mret (Some ("/mission/" +:+ pretty (mission_ident currentMission)))
       | None => mret None
       end)
      (fun error =>
         perform (ConsoleError "Failed to start mission:" error) ;;
         mret None);
  set (with_isStartingMission false) ;;
  mret visited.

Definition getGreeting (hour : Z) : string :=
  if hour <? 12 then "좋은 아침이에요"
  else if hour <? 18 then "안녕하세요"
  else "좋은 저녁이에요".

End DashboardPage.

(** Backends and stores for the examples of the pages. *)
Module Samples.

(** A backend that refuses every request with the same envelope. *)
Definition refusing (msg : string) : Backend :=
  fun T _ => Fulfilled (mkAPIResponse false msg None).


Definition a_progress (done total : Z) (p : option Problem) : MissionProgress :=
  mkMissionProgress 7 total done p (100 * done / total) None.

Definition a_running_page (t0 : Z) : MissionPage.PageState :=
  MissionPage.mkPageState
    (MissionStore.mkMissionState
       (Some (Scenario.a_mission 2 5 IN_PROGRESS)) (Some (Scenario.a_problem 3))
       (Some (a_progress 2 5 (Some (Scenario.a_problem 3))))
       false None 30 (Some t0))
    (AnswerStore.with_capturedImages [Scenario.photo "blob:a"]
       AnswerStore.initial)
    true false.

End Samples.

(** ** The interpreters on sequenced actions *)

Section Sequencing.
Context {St : Type}.

(** An action that settles within the turn hands over to what follows
    it; a rejection skips it; a pending request keeps it for later. *)
Lemma run_bind {A B} (m : Async St A) (f : A -> Async St B) : forall st,
  run (bind m f) st =
    let r := run m st in
    match outcome r with
    | Settle (Resolved a) =>
        let r' := run (f a) (final r) in
        mkRun (final r') (trace r ++ trace r') (outcome r')
    | Settle (Rejected error) =>
        mkRun (final r) (trace r) (Settle (Rejected error))
    | Pending req k =>
        mkRun (final r) (trace r) (Pending req (fun o => bind (k o) f))
    end.
Proof.
  induction m as [a|error|k IH|g k IH|e k IH|T req k IH]; intros st; simpl.
  - destruct (run (f a) st); reflexivity.
  - reflexivity.
  - apply IH.
  - apply IH.
  - rewrite IH. cbv zeta.
    destruct (run k st) as [s t [[a|error]|T req k']]; reflexivity.
  - reflexivity.
Qed.

Lemma exec_bind {A B} (backend : Backend) (m : Async St A)
    (f : A -> Async St B) : forall st,
  exec backend (bind m f) st =
    let r := exec backend m st in
    match outcome r with
    | Resolved a =>
        let r' := exec backend (f a) (final r) in
        mkRun (final r') (trace r ++ trace r') (outcome r')
    | Rejected error => mkRun (final r) (trace r) (Rejected error)
    end.
Proof.
  induction m as [a|error|k IH|g k IH|e k IH|T req k IH]; intros st; simpl.
  - destruct (exec backend (f a) st); reflexivity.
  - reflexivity.
  - apply IH.
  - apply IH.
  - rewrite IH. cbv zeta.
    destruct (exec backend k st) as [s t [a|error]]; reflexivity.
  - rewrite IH. cbv zeta.
    destruct (exec backend (k (backend T req)) st) as [s t [a|error]];
      reflexivity.
Qed.

(** A [forEach] whose body only performs an effect leaves the store
    alone and logs one effect per element, in the order of the list. *)
Lemma run_for_each_perform {A} (effect : A -> Effect) (l : list A) (st : St) :
  run (for_each (fun x => perform (effect x)) l) st =
    mkRun st (map effect l) (Settle (Resolved tt)).
Proof.
  induction l as [|x l IH]; simpl; [reflexivity|].
  unfold logged. rewrite IH. reflexivity.
Qed.
End Sequencing.

(** ** Properties of the answer store *)

Module AnswerProperties.
Import AnswerStore Scenario.

(** The filter of [removeCapturedImage] drops the position [index]
    when the positions [k], [k+1], ... of the list reach it, and
    nothing otherwise. *)
Lemma filter_from_skips {A} (index : Z) (l : list A) : forall k : nat,
  filter_from (fun _ i => negb (Z.of_nat i =? index)%Z) k l =
    if decide (Z.of_nat k <= index < Z.of_nat (k + length l))
    then take (Z.to_nat index - k) l ++ drop (S (Z.to_nat index - k)) l
    else l.
Proof.
  induction l as [|x l IH]; intros k; simpl.
  - case_decide; [lia | reflexivity].
  - rewrite IH. destruct (Z.eqb_spec (Z.of_nat k) index) as [Heq|Hne]; simpl.
    + subst index. rewrite Nat2Z.id, Nat.sub_diag.
      rewrite decide_False by lia. rewrite decide_True by lia.
      simpl. rewrite drop_0. reflexivity.
    + repeat case_decide; try lia; try reflexivity.
      replace (Z.to_nat index - k)%nat with (S (Z.to_nat index - S k)) by lia.
      reflexivity.
Qed.

(** C10. [removeCapturedImage] settles without throwing for every
    integer index and touches nothing but the staged list: an index
    within the list removes the element at that position and keeps
    the others in their order (the elements before it, then the
    elements after it); any other index leaves the list as it was. *)
Theorem removeCapturedImage_total (backend : Backend) (index : Z)
    (st : AnswerState) :
  let staged := capturedImages st in
  exec backend (removeCapturedImage index) st =
    mkRun
      (with_capturedImages
         (if decide (0 <= index < Z.of_nat (length staged))
          then take (Z.to_nat index) staged
                 ++ drop (S (Z.to_nat index)) staged
          else staged)
         st)
      [] (Resolved tt).
Proof.
  intros staged. unfold removeCapturedImage, js_filter. simpl.
  rewrite filter_from_skips. simpl. rewrite Nat.sub_0_r.
  reflexivity.
Qed.

(** C3. With no staged image [submitAnswer] sends nothing: the run
    ends with an empty trace, the fixed validation message recorded
    as the store's error, and the promise rejected with that message,
    whatever the mission, the problem and the time spent. *)
Theorem submitAnswer_requires_images (backend : Backend)
    (missionId problemId : Z) (timeSpent : option Z) (st : AnswerState) :
  capturedImages st = [] ->
  exec backend (submitAnswer missionId problemId timeSpent) st =
    mkRun (with_error (Some (mkAppError images_required None)) st)
      [] (Rejected (ErrorObj images_required)).
Proof.
  intros Hempty. unfold submitAnswer. simpl. rewrite Hempty. reflexivity.
Qed.

Lemma submitAnswer_requires_images_witness :
  capturedImages initial = [] /\
  exec offline (submitAnswer 7 3 (Some 95)) initial =
    mkRun (with_error (Some (mkAppError images_required None)) initial)
      [] (Rejected (ErrorObj images_required)).
Proof.
  split; [reflexivity|].
  apply (submitAnswer_requires_images offline 7 3 (Some 95) initial).
  reflexivity.
Defined.

(** The two staging actions settle within their turn and change the
    number of staged images by one, up or down. *)
Lemma run_calls_cons (c : ImageCall) (cs : list ImageCall) (st : AnswerState) :
  run (calls (c :: cs)) st = run (calls cs) (final (run (call c) st)).
Proof. destruct c; reflexivity. Qed.

Lemma staged_after_call (c : ImageCall) (st : AnswerState) :
  match c with
  | Add _ => True
  | Remove index => 0 <= index < Z.of_nat (length (capturedImages st))
  end ->
  Z.of_nat (length (capturedImages (final (run (call c) st)))) =
    Z.of_nat (length (capturedImages st))
    + (if is_add c then 1 else 0) - (if is_add c then 0 else 1).
Proof.
  destruct c as [image|index]; simpl; intros Hrange.
  - rewrite length_app. simpl. lia.
  - unfold js_filter. rewrite filter_from_skips. simpl.
    rewrite decide_True by lia.
    rewrite length_app, length_take, length_drop. lia.
Qed.

Lemma releases_previews (url : string) (images : list CapturedImage) :
  releases url (map (fun image => RevokeObjectURL (preview image)) images) =
    staged_with url images.
Proof.
  unfold releases, staged_with.
  induction images as [|image images IH]; simpl; [reflexivity|].
  destruct (bool_decide (preview image = url)); simpl; rewrite IH; reflexivity.
Qed.

Lemma run_clearCapturedImages (st : AnswerState) :
  run clearCapturedImages st =
    mkRun (with_capturedImages [] st)
      (map (fun image => RevokeObjectURL (preview image)) (capturedImages st))
      (Settle (Resolved tt)).
Proof.
  unfold clearCapturedImages. simpl. unfold mbind, async_bind.
  rewrite run_bind, run_for_each_perform. simpl.
  rewrite app_nil_r. reflexivity.
Qed.

Lemma run_reset (st : AnswerState) :
  run reset st =
    mkRun initial
      (map (fun image => RevokeObjectURL (preview image)) (capturedImages st))
      (Settle (Resolved tt)).
Proof.
  unfold reset. simpl. unfold mbind, async_bind.
  rewrite run_bind, run_for_each_perform. simpl.
  rewrite app_nil_r. reflexivity.
Qed.

(** C2, as the store has it.  Along a sequence of [addCapturedImage]
    and [removeCapturedImage] calls whose removals each name a staged
    position, the number of staged images grows by the additions and
    shrinks by the removals.  [clearCapturedImages] and [reset] then
    release the preview of every staged image, one release per image
    and in the order of the list (so a URL is released as often as
    images carry it), and leave no image staged, so that clearing
    again releases nothing. *)
Theorem staged_count_and_release (cs : list ImageCall) (st : AnswerState) :
  removals_in_range cs st ->
  let after := final (run (calls cs) st) in
  let previews :=
    map (fun image => RevokeObjectURL (preview image)) (capturedImages after) in
  let cleared := run clearCapturedImages after in
  let wiped := run reset after in
  Z.of_nat (length (capturedImages after)) =
    Z.of_nat (length (capturedImages st)) + additions cs - removals cs
  /\ (trace cleared = previews /\ trace wiped = previews)
  /\ (forall url,
        releases url (trace cleared) = staged_with url (capturedImages after)
        /\ releases url (trace wiped) = staged_with url (capturedImages after))
  /\ (capturedImages (final cleared) = []
      /\ capturedImages (final wiped) = [])
  /\ (trace (run clearCapturedImages (final cleared)) = []
      /\ trace (run reset (final cleared)) = []
      /\ trace (run clearCapturedImages (final wiped)) = []
      /\ trace (run reset (final wiped)) = []).
Proof.
  intros Hrange after previews cleared wiped.
  split.
  - subst after. clear previews cleared wiped.
    revert st Hrange. induction cs as [|c cs IH]; intros st Hrange.
    + unfold additions, removals. simpl. lia.
    + destruct Hrange as [Hc Hcs].
      rewrite run_calls_cons, (IH _ Hcs), (staged_after_call c st Hc).
      unfold additions, removals. simpl.
      destruct (is_add c); simpl; lia.
  - subst cleared wiped previews.
    rewrite !run_clearCapturedImages, !run_reset. simpl.
    repeat split; try reflexivity; apply releases_previews.
Qed.

Lemma staged_count_and_release_witness :
  let cs := [Add (photo "blob:a"); Add (photo "blob:b"); Remove 0;
             Add (photo "blob:b")] in
  removals_in_range cs initial
  /\ Z.of_nat (length (capturedImages (final (run (calls cs) initial)))) = 2
  /\ trace (run reset (final (run (calls cs) initial))) =
       [RevokeObjectURL "blob:b"; RevokeObjectURL "blob:b"].
Proof.
  intros cs.
  assert (Hrange : removals_in_range cs initial).
  { subst cs. simpl. repeat split; lia. }
  split; [exact Hrange|].
  destruct (staged_count_and_release cs initial Hrange)
    as [Hcount [[_ Hwiped] _]].
  split; [exact Hcount | exact Hwiped].
Defined.

(** C2 as stated fails twice.  A removal that names no staged
    position is counted as a removal but removes nothing: after one
    such call on the empty store the count is 0, not 0 - 1.  And an
    image taken out by [removeCapturedImage] is gone from the store
    without its preview having been released. *)
Lemma staged_count_counterexample :
  Z.of_nat (length (capturedImages (final (run (calls [Remove 0]) initial))))
    <> additions [Remove 0] - removals [Remove 0]
  /\ (let r := run (calls [Add (photo "blob:a"); Remove 0]) initial in
      capturedImages (final r) = []
      /\ releases "blob:a" (trace r) = 0%nat
      /\ trace (run reset (final r)) = []).
Proof.
  split; [|repeat split]. vm_compute. discriminate.
Qed.

(** The turn of [submitAnswer] up to its [await], with images staged:
    the flag is raised, the old error dropped and the upload sent. *)
Lemma submitAnswer_first_turn (missionId problemId : Z)
    (timeSpent : option Z) (st : AnswerState) :
  capturedImages st <> [] ->
  let r := run (submitAnswer missionId problemId timeSpent) st in
  final r = with_error None (with_isSubmitting true st)
  /\ trace r =
       [NetCall (SubmitAnswer missionId problemId
                   (map file (capturedImages st)) timeSpent)]
  /\ in_flight (outcome r) = true.
Proof.
  intros Hstaged. unfold submitAnswer. simpl.
  destruct (capturedImages st) as [|image images] eqn:E; [congruence|].
  simpl. repeat split.
Qed.

(** C4, as the store has it.  [submitAnswer] never looks at
    [isSubmitting]: a call made while an earlier submission is still
    pending, with images staged, is neither rejected nor queued.  It
    sends its own upload in the same turn, so that both requests are
    in flight together and the flag stays raised. *)
Theorem submitAnswer_not_serialized
    (missionId problemId missionId' problemId' : Z)
    (timeSpent timeSpent' : option Z) (st : AnswerState) :
  capturedImages st <> [] ->
  let first := run (submitAnswer missionId problemId timeSpent) st in
  let second :=
    run (submitAnswer missionId' problemId' timeSpent') (final first) in
  (isSubmitting (final first) = true /\ in_flight (outcome first) = true)
  /\ trace second =
       [NetCall (SubmitAnswer missionId' problemId'
                   (map file (capturedImages st)) timeSpent')]
  /\ in_flight (outcome second) = true
  /\ final second = final first.
Proof.
  intros Hstaged first second.
  destruct (submitAnswer_first_turn missionId problemId timeSpent st Hstaged)
    as (Hfinal & _ & Hflight).
  fold first in Hfinal, Hflight.
  assert (Hstaged' : capturedImages (final first) <> [])
    by (rewrite Hfinal; exact Hstaged).
  destruct (submitAnswer_first_turn missionId' problemId' timeSpent'
              (final first) Hstaged') as (Hfinal' & Htrace' & Hflight').
  fold second in Hfinal', Htrace', Hflight'.
  repeat split.
  - rewrite Hfinal. reflexivity.
  - exact Hflight.
  - rewrite Htrace', Hfinal. reflexivity.
  - exact Hflight'.
  - rewrite Hfinal', Hfinal. reflexivity.
Qed.

Lemma submitAnswer_not_serialized_witness :
  let st := with_capturedImages [photo "blob:a"] initial in
  capturedImages st <> []
  /\ trace (run (submitAnswer 7 3 None)
              (final (run (submitAnswer 7 3 None) st))) =
       [NetCall (SubmitAnswer 7 3 [file (photo "blob:a")] None)].
Proof.
  intros st.
  assert (Hstaged : capturedImages st <> []) by (subst st; discriminate).
  split; [exact Hstaged|].
  destruct (submitAnswer_not_serialized 7 3 7 3 None None st Hstaged)
    as (_ & Htrace & _).
  exact Htrace.
Defined.

(** C4 as stated fails: the claim has the second of two overlapping
    [submitAnswer] calls send nothing.  With one image staged, a
    second call for the same mission and problem, made while the
    first upload is pending and [isSubmitting] is raised, sends the
    same upload again; once the backend has answered both, each call
    resolves with an answer record of its own. *)
Lemma double_submit_counterexample :
  let st := with_capturedImages [photo "blob:a"] initial in
  let first := run (submitAnswer 7 3 None) st in
  let second := run (submitAnswer 7 3 None) (final first) in
  let done1 := resume (accepting 100) (outcome first) (final second) in
  let done2 := resume (accepting 101) (outcome second) (final done1) in
  isSubmitting (final first) = true
  /\ trace second <> []
  /\ trace first ++ trace second =
       [NetCall (SubmitAnswer 7 3 [file (photo "blob:a")] None);
        NetCall (SubmitAnswer 7 3 [file (photo "blob:a")] None)]
  /\ in_flight (outcome first) && in_flight (outcome second) = true
  /\ outcome done1 = Settle (Resolved 100)
  /\ outcome done2 = Settle (Resolved 101).
Proof.
  cbv zeta. repeat split. discriminate.
Qed.

(** One fetch of [getAnswerResult].  An answer without a score raises
    [isProcessing] and sets the five-second timer for the same answer;
    a scored answer or a failure lowers the flag and sets no timer. *)
Lemma getAnswerResult_fetch (answerId : Z)
    (o : ApiOutcome AnswerResultData) (st : AnswerState) :
  let r := exec (answering o) (getAnswerResult answerId) st in
  if unscored o
  then trace r = poll_round answerId
       /\ isProcessing (final r) = true
       /\ outcome r = Resolved tt
  else trace r = [NetCall (GetAnswerResult answerId)]
       /\ isProcessing (final r) = false
       /\ (outcome r = Resolved tt <-> error (final r) = None).
Proof.
  unfold getAnswerResult, unscored. simpl.
  destruct o as [response|thrown]; simpl.
  - destruct (success_and_data response) as [d|]; simpl.
    + destruct (score_is_null (score (answer d))); simpl; repeat split.
    + repeat split; discriminate.
  - repeat split; discriminate.
Qed.

Lemma drain_cons (o : ApiOutcome AnswerResultData)
    (script : list (ApiOutcome AnswerResultData)) (task : TimerTask)
    (ms : Z) (queue : list (TimerTask * Z)) (st : AnswerState) :
  drain (o :: script) ((task, ms) :: queue) st =
    (let r := exec (answering o) (fire task) st in
     let rest := drain script (queue ++ timers_of (trace r)) (final r) in
     mkPolling (store rest) (trace r ++ log rest) (waiting rest)).
Proof. reflexivity. Qed.

Lemma poll_session_drain (answerId : Z)
    (script : list (ApiOutcome AnswerResultData)) (st : AnswerState)
    (ms : Z) :
  script <> [] ->
  poll_session answerId script st =
    drain script [(PollAnswerResult answerId, ms)] st.
Proof. destruct script; [congruence | reflexivity]. Qed.

(** Draining a queue that holds the poll of [answerId] over fetches
    that all find no score: every fetch is one round, and the poll is
    waiting again afterwards. *)
Lemma drain_unscored (answerId : Z)
    (waits rest : list (ApiOutcome AnswerResultData)) :
  Forall (fun o => unscored o = true) waits ->
  forall (st : AnswerState) (ms : Z),
    let p := drain waits [(PollAnswerResult answerId, ms)] st in
    log p = mjoin (replicate (length waits) (poll_round answerId))
    /\ waiting p =
         [(PollAnswerResult answerId,
           match waits with [] => ms | _ => 5000 end)]
    /\ (waits <> [] -> isProcessing (store p) = true)
    /\ drain (waits ++ rest) [(PollAnswerResult answerId, ms)] st =
         (let q := drain rest (waiting p) (store p) in
          mkPolling (store q) (log p ++ log q) (waiting q)).
Proof.
  induction 1 as [|o waits Ho _ IH]; intros st ms.
  - simpl. repeat split; [congruence|]. destruct (drain rest _ st); reflexivity.
  - pose proof (getAnswerResult_fetch answerId o st) as Hfetch.
    cbv zeta in Hfetch. rewrite Ho in Hfetch.
    destruct Hfetch as (Htrace & Hflag & _).
    rewrite <- app_comm_cons, !drain_cons.
    change (fire (PollAnswerResult answerId)) with (getAnswerResult answerId).
    remember (exec (answering o) (getAnswerResult answerId) st) as r eqn:Hr.
    clear Hr. destruct r as [st' es res]. simpl in Htrace, Hflag. subst es.
    cbv zeta. cbn [trace final store log waiting].
    change ([] ++ timers_of (poll_round answerId))
      with [(PollAnswerResult answerId, 5000)].
    destruct (IH st' 5000) as (Hlog & Hwait & Hproc & Happ).
    cbv zeta in Hlog, Hwait, Hproc, Happ.
    rewrite Happ. cbn [store log waiting].
    remember (drain waits [(PollAnswerResult answerId, 5000)] st') as D eqn:HD.
    assert (Hwait' : waiting D = [(PollAnswerResult answerId, 5000)])
      by (rewrite Hwait; destruct waits; reflexivity).
    repeat split.
    + rewrite Hlog. reflexivity.
    + exact Hwait'.
    + intros _. destruct waits as [|o' waits].
      * subst D. exact Hflag.
      * apply Hproc. discriminate.
Qed.

(** C1.  A call of [getAnswerResult] whose fetches keep finding the
    answer without a score ([score === null]) polls: every such fetch
    is followed by one timer of 5000 ms for the same answer, the
    store shows [isProcessing], and the timer is waiting however many
    fetches have gone by.  The first fetch that returns a score, or
    fails, ends it: that fetch sets no timer, none is waiting,
    [isProcessing] is lowered and no later fetch takes place. *)
Theorem polling_contract (answerId : Z) (st : AnswerState)
    (waits later : list (ApiOutcome AnswerResultData))
    (last : ApiOutcome AnswerResultData) :
  Forall (fun o => unscored o = true) waits ->
  unscored last = false ->
  let rounds := mjoin (replicate (length waits) (poll_round answerId)) in
  let polling := poll_session answerId waits st in
  let settled := poll_session answerId (waits ++ last :: later) st in
  log polling = rounds
  /\ (waits <> [] ->
      isProcessing (store polling) = true
      /\ waiting polling = [(PollAnswerResult answerId, 5000)])
  /\ log settled = rounds ++ [NetCall (GetAnswerResult answerId)]
  /\ waiting settled = []
  /\ isProcessing (store settled) = false.
Proof.
  intros Hwaits Hlast rounds polling settled.
  destruct (drain_unscored answerId waits (last :: later) Hwaits st 0)
    as (Hlog & Hwait & Hproc & Happ).
  assert (Hpolling : waits <> [] ->
            polling = drain waits [(PollAnswerResult answerId, 0)] st)
    by (intros Hne; apply poll_session_drain; exact Hne).
  assert (Hsettled :
            settled =
              drain (waits ++ last :: later)
                [(PollAnswerResult answerId, 0)] st)
    by (apply poll_session_drain; destruct waits; discriminate).
  split; [|split].
  - destruct waits as [|o waits]; [reflexivity|].
    rewrite Hpolling by discriminate. exact Hlog.
  - intros Hne. rewrite (Hpolling Hne). split; [exact (Hproc Hne)|].
    rewrite Hwait. destruct waits; [congruence | reflexivity].
  - rewrite Hsettled, Happ, Hwait, Hlog. cbv zeta.
    rewrite drain_cons.
    change (fire (PollAnswerResult answerId)) with (getAnswerResult answerId).
    pose proof (getAnswerResult_fetch answerId last
                  (store (drain waits [(PollAnswerResult answerId, 0)] st)))
      as Hfetch.
    cbv zeta in Hfetch. rewrite Hlast in Hfetch.
    destruct Hfetch as (Htrace & Hflag & _).
    remember (exec (answering last) (getAnswerResult answerId)
                (store (drain waits [(PollAnswerResult answerId, 0)] st)))
      as r eqn:Hr.
    clear Hr. destruct r as [st' es res]. simpl in Htrace, Hflag. subst es.
    cbv zeta. simpl.
    destruct later; simpl; repeat split; exact Hflag.
Qed.

Lemma polling_contract_witness :
  let waits := [graded ScoreNull 0; graded ScoreNull 0] in
  let last := graded (ScoreNumber 85) 85 in
  (Forall (fun o => unscored o = true) waits /\ unscored last = false)
  /\ log (poll_session 42 (waits ++ [last; graded ScoreNull 0]) initial) =
       poll_round 42 ++ poll_round 42 ++ [NetCall (GetAnswerResult 42)].
Proof.
  intros waits last.
  assert (Hwaits : Forall (fun o => unscored o = true) waits)
    by (subst waits; repeat constructor).
  assert (Hlast : unscored last = false) by reflexivity.
  split; [split; [exact Hwaits | exact Hlast]|].
  destruct (polling_contract 42 initial waits [graded ScoreNull 0] last
              Hwaits Hlast) as (_ & _ & Hlog & _).
  exact Hlog.
Defined.

End AnswerProperties.

(** ** Properties of the mission store *)

Module MissionProperties.
Import MissionStore Scenario.

(** C5. [fetchCurrentMission] sends the one request and then, by its
    outcome: an envelope with data fills in mission, current problem
    and progress; an envelope without (the backend has no active
    mission) empties the three and resolves with no error recorded;
    an exception of the client (transport failure, non-2xx status) is
    recorded as the error and rethrown, the mission, problem and
    progress of the store being what they were. *)
Theorem fetchCurrentMission_outcomes (backend : Backend) (st : MissionState) :
  let r := exec backend fetchCurrentMission st in
  trace r = [NetCall GetCurrentMission]
  /\ isLoading (final r) = false
  /\ match backend _ GetCurrentMission with
     | Fulfilled response =>
         outcome r = Resolved tt
         /\ error (final r) = None
         /\ match success_and_data response with
            | Some d =>
                currentMission (final r) = Some (cm_mission d)
                /\ currentProblem (final r) = Some (cm_current_problem d)
                /\ missionProgress (final r) = Some (cm_progress d)
            | None =>
                currentMission (final r) = None
                /\ currentProblem (final r) = None
                /\ missionProgress (final r) = None
            end
     | Failed thrown =>
         outcome r = Rejected thrown
         /\ error (final r) =
              Some (mkAppError
                      (error_message thrown "미션 조회 중 오류가 발생했습니다.")
                      None)
         /\ currentMission (final r) = currentMission st
         /\ currentProblem (final r) = currentProblem st
         /\ missionProgress (final r) = missionProgress st
     end.
Proof.
  unfold fetchCurrentMission. simpl.
  destruct (backend _ GetCurrentMission) as [response|thrown]; simpl.
  - destruct (success_and_data response) as [d|]; simpl; repeat split.
  - repeat split.
Qed.

(** C8. For each mission type, [startNewMission] on an envelope with
    data makes the progress snapshot from that envelope alone: the
    id and the two counts of the returned mission, its first problem
    as current problem, percentage 0.  The mission becomes the
    current one, loading ends without error, and the creation request
    is the only one sent. *)
Theorem startNewMission_snapshot (backend : Backend)
    (missionType : MissionType) (st : MissionState)
    (response : APIResponse StartMissionData) (d : StartMissionData) :
  backend _ (StartMission missionType) = Fulfilled response ->
  success_and_data response = Some d ->
  exec backend (startNewMission (Some missionType)) st =
    mkRun
      (mkMissionState
         (Some (sm_mission d))
         (Some (first_problem d))
         (Some (mkMissionProgress
                  (mission_ident (sm_mission d))
                  (mission_total_problems (sm_mission d))
                  (mission_completed_problems (sm_mission d))
                  (Some (first_problem d))
                  0
                  None))
         false None (timeSpent st) (startTime st))
      [NetCall (StartMission missionType)]
      (Resolved tt).
Proof.
  intros Hreply Hdata. unfold startNewMission. simpl.
  rewrite Hreply. simpl. rewrite Hdata. reflexivity.
Qed.

Lemma startNewMission_snapshot_witness :
  let d := mkStartMissionData (a_mission 0 5 IN_PROGRESS) (a_problem 11) in
  let response := mkAPIResponse true "created" (Some d) in
  let backend :=
    mission_backend (Failed NonError) (Fulfilled response) (Failed NonError)
      (Failed NonError) (Failed NonError) in
  missionProgress (final (exec backend (startNewMission (Some REVIEW)) initial))
    = Some (mkMissionProgress 7 5 0 (Some (a_problem 11)) 0 None).
Proof.
  intros d response backend.
  rewrite (startNewMission_snapshot backend REVIEW initial response d);
    reflexivity.
Defined.

(** C9. Without a current mission, [getCurrentProblem],
    [updateProgress] and [completeMission] resolve at once: no
    request, no effect, the store as it was (so no error recorded). *)
Theorem no_mission_no_op (backend : Backend) (st : MissionState) :
  currentMission st = None ->
  exec backend getCurrentProblem st = mkRun st [] (Resolved tt)
  /\ exec backend updateProgress st = mkRun st [] (Resolved tt)
  /\ exec backend completeMission st = mkRun st [] (Resolved tt).
Proof.
  intros Hnone.
  unfold getCurrentProblem, updateProgress, completeMission. simpl.
  rewrite Hnone. repeat split.
Qed.

Lemma no_mission_no_op_witness :
  currentMission initial = None
  /\ exec offline completeMission initial = mkRun initial [] (Resolved tt).
Proof.
  split; [reflexivity|].
  apply (no_mission_no_op offline initial). reflexivity.
Defined.

(** C6. The timer, for a start instant [t0] read from a clock past
    the epoch ([t0 <> 0]).  [stopTimer] at [now] adds the whole
    seconds from [t0] to [now] to the total and clears the start
    instant; with no start instant it does nothing.  [getTimeSpent] is
    a read: it leaves the store alone and returns the total, plus the
    whole seconds of the running interval if there is one; read later
    it returns no less; after [stopTimer] it returns the same value
    at every instant; after [resetTimer] it returns 0. *)
Theorem timer_contract (st : MissionState) (t0 now now' : Z) :
  t0 <> 0 ->
  now <= now' ->
  let running := with_startTime (Some t0) st in
  let idle := with_startTime None st in
  let elapsed := (now - t0) / 1000 in
  let stopped := final (run (stopTimer now) running) in
  (run (stopTimer now) running =
     mkRun (with_startTime None (with_timeSpent (timeSpent st + elapsed) st))
       [] (Settle (Resolved tt))
   /\ run (stopTimer now) idle = mkRun idle [] (Settle (Resolved tt)))
  /\ (run (getTimeSpent now) running =
        mkRun running [] (Settle (Resolved (timeSpent st + elapsed)))
      /\ run (getTimeSpent now) idle =
           mkRun idle [] (Settle (Resolved (timeSpent st))))
  /\ (exists v v',
        returned (outcome (run (getTimeSpent now) running)) = Some v
        /\ returned (outcome (run (getTimeSpent now') running)) = Some v'
        /\ v <= v')
  /\ (forall t,
        returned (outcome (run (getTimeSpent t) stopped))
          = Some (timeSpent st + elapsed))
  /\ (forall (s : MissionState) (t : Z),
        returned (outcome (run (getTimeSpent t) (final (run resetTimer s))))
          = Some 0).
Proof.
  intros Hstart Hlater running idle elapsed stopped.
  assert (Htruthy : (t0 =? 0) = false) by (apply Z.eqb_neq; exact Hstart).
  assert (Hstop : run (stopTimer now) running =
            mkRun (with_startTime None
                     (with_timeSpent (timeSpent st + elapsed) st))
              [] (Settle (Resolved tt))).
  { unfold stopTimer. simpl. rewrite Htruthy. reflexivity. }
  assert (Hread : forall t,
            run (getTimeSpent t) running =
              mkRun running []
                (Settle (Resolved (timeSpent st + (t - t0) / 1000)))).
  { intros t. unfold getTimeSpent. simpl. rewrite Htruthy. reflexivity. }
  repeat split.
  - exact Hstop.
  - apply Hread.
  - exists (timeSpent st + (now - t0) / 1000),
           (timeSpent st + (now' - t0) / 1000).
    rewrite !Hread. simpl. repeat split.
    apply Z.add_le_mono_l, Z.div_le_mono; lia.
  - intros t. subst stopped. rewrite Hstop. reflexivity.
Qed.

Lemma timer_contract_witness :
  let st := with_timeSpent 30 initial in
  (1700000000000 <> 0 /\ 1700000012999 <= 1700000013000)
  /\ run (stopTimer 1700000012999) (with_startTime (Some 1700000000000) st) =
       mkRun (with_startTime None (with_timeSpent (30 + 12) st))
         [] (Settle (Resolved tt)).
Proof.
  intros st.
  assert (Hstart : 1700000000000 <> 0) by lia.
  assert (Hlater : 1700000012999 <= 1700000013000) by lia.
  split; [split; [exact Hstart | exact Hlater]|].
  destruct (timer_contract st 1700000000000 1700000012999 1700000013000
              Hstart Hlater) as [[Hstop _] _].
  exact Hstop.
Defined.

(** [completeMission] with a mission held, by the envelope of the
    backend: confirmed completion adopts the returned mission, clears
    the current problem and goes on to refresh the progress; a
    mission reported unfinished is rejected with the fixed message. *)
Lemma completeMission_confirmed (backend : Backend) (st : MissionState)
    (mission : Mission) (response : APIResponse CompleteMissionData)
    (d : CompleteMissionData) :
  currentMission st = Some mission ->
  backend _ (CompleteMission (mission_ident mission)) = Fulfilled response ->
  success_and_data response = Some d ->
  completed d = true ->
  exec backend completeMission st =
    logged (NetCall (CompleteMission (mission_ident mission)))
      (exec backend updateProgress
         (with_isLoading false
            (with_currentProblem None
               (with_currentMission (Some (done_mission d))
                  (with_error None (with_isLoading true st)))))).
Proof.
  intros Hheld Hreply Hdata Hdone. unfold completeMission. simpl.
  rewrite Hheld. simpl. rewrite Hreply. simpl. rewrite Hdata, Hdone. simpl.
  unfold updateProgress. simpl.
  destruct (backend _ (GetMissionProgress (mission_ident (done_mission d))))
    as [progress|thrown]; simpl; [|reflexivity].
  destruct (success_and_data progress) as [p|]; simpl; [|reflexivity].
  destruct (current_problem p); reflexivity.
Qed.

Lemma completeMission_unfinished (backend : Backend) (st : MissionState)
    (mission : Mission) (response : APIResponse CompleteMissionData)
    (d : CompleteMissionData) :
  currentMission st = Some mission ->
  backend _ (CompleteMission (mission_ident mission)) = Fulfilled response ->
  success_and_data response = Some d ->
  completed d = false ->
  exec backend completeMission st =
    mkRun
      (with_error (Some (mkAppError not_finished None))
         (with_isLoading false (with_error None st)))
      [NetCall (CompleteMission (mission_ident mission))]
      (Rejected (ErrorObj not_finished)).
Proof.
  intros Hheld Hreply Hdata Hdone. unfold completeMission. simpl.
  rewrite Hheld. simpl. rewrite Hreply. simpl. rewrite Hdata, Hdone.
  reflexivity.
Qed.

(** C7 fails on the [success: false] envelope.  [completeMission] has
    no branch for it: the call resolves as if it had succeeded, no
    error is recorded (the message of the envelope is dropped) and
    [isLoading] stays raised. *)
Theorem completeMission_unsuccessful_envelope (backend : Backend)
    (st : MissionState) (mission : Mission) (msg : string)
    (d : option CompleteMissionData) :
  currentMission st = Some mission ->
  backend _ (CompleteMission (mission_ident mission)) =
    Fulfilled (mkAPIResponse false msg d) ->
  exec backend completeMission st =
    mkRun (with_error None (with_isLoading true st))
      [NetCall (CompleteMission (mission_ident mission))]
      (Resolved tt).
Proof.
  intros Hheld Hreply. unfold completeMission. simpl.
  rewrite Hheld. simpl. rewrite Hreply. reflexivity.
Qed.

Lemma completeMission_unsuccessful_envelope_witness :
  let st := with_currentMission (Some (a_mission 4 5 IN_PROGRESS)) initial in
  let refused :=
    Fulfilled (mkAPIResponse false "Mission has unfinished problems" None) in
  let backend :=
    mission_backend (Failed NonError) (Failed NonError) (Failed NonError)
      refused (Failed NonError) in
  let r := exec backend completeMission st in
  outcome r = Resolved tt
  /\ error (final r) = None
  /\ isLoading (final r) = true.
Proof.
  intros st refused backend r. subst r.
  rewrite (completeMission_unsuccessful_envelope backend st
             (a_mission 4 5 IN_PROGRESS)
             "Mission has unfinished problems" None);
    repeat split.
Defined.

End MissionProperties.

(** ** More on the interpreters: handlers and lifted actions *)

Section Handlers.
Context {St : Type}.

(** [try]/[catch] on a run to the end: the handler takes over where
    the body threw, with the store and the trace the body left. *)
Lemma exec_try_catch {A} (backend : Backend) (m : Async St A)
    (handler : Thrown -> Async St A) : forall st,
  exec backend (try_catch m handler) st =
    let r := exec backend m st in
    match outcome r with
    | Resolved a => r
    | Rejected error =>
        let r' := exec backend (handler error) (final r) in
        mkRun (final r') (trace r ++ trace r') (outcome r')
    end.
Proof.
  induction m as [a|error|k IH|g k IH|e k IH|T req k IH]; intros st; simpl.
  - reflexivity.
  - destruct (exec backend (handler error) st); reflexivity.
  - apply IH.
  - apply IH.
  - rewrite IH. cbv zeta.
    destruct (exec backend k st) as [s t [a|error]]; reflexivity.
  - rewrite IH. cbv zeta.
    destruct (exec backend (k (backend T req)) st) as [s t [a|error]];
      reflexivity.
Qed.

(** An action that settles within its turn never asks the backend. *)
Lemma exec_settled {A} (backend : Backend) (m : Async St A) : forall st,
  match outcome (run m st) with
  | Settle settled =>
      exec backend m st = mkRun (final (run m st)) (trace (run m st)) settled
  | Pending _ _ => True
  end.
Proof.
  induction m as [a|error|k IH|g k IH|e k IH|T req k IH]; intros st; simpl.
  - reflexivity.
  - reflexivity.
  - apply IH.
  - apply IH.
  - specialize (IH st). destruct (run k st) as [s t [settled|T req k']];
      simpl in *; [|exact I].
    rewrite IH. reflexivity.
  - exact I.
Qed.
End Handlers.

Section LiftedRuns.
Context {S1 S2 : Type} (proj : S2 -> S1) (inj : S1 -> S2 -> S2).
Hypothesis proj_inj : forall a s, proj (inj a s) = a.
Hypothesis inj_inj : forall a b s, inj a (inj b s) = inj a s.
Hypothesis inj_proj : forall s, inj (proj s) s = s.

(** An action of a store run on a page is its run on the store, put
    back in the store's place. *)
Lemma exec_lift {A} (backend : Backend) (m : Async S1 A) : forall s,
  exec backend (lift proj inj m) s =
    let r := exec backend m (proj s) in
    mkRun (inj (final r) s) (trace r) (outcome r).
Proof.
  induction m as [a|error|k IH|g k IH|e k IH|T req k IH]; intros s; simpl.
  - rewrite inj_proj. reflexivity.
  - rewrite inj_proj. reflexivity.
  - apply IH.
  - rewrite IH. cbv zeta. rewrite proj_inj, inj_inj. reflexivity.
  - rewrite IH. reflexivity.
  - rewrite IH. reflexivity.
Qed.

(** The same for one turn; a pending request keeps the lifted
    continuation. *)
Lemma run_lift {A} (m : Async S1 A) : forall s,
  run (lift proj inj m) s =
    let r := run m (proj s) in
    mkRun (inj (final r) s) (trace r)
      (match outcome r with
       | Settle settled => Settle settled
       | Pending req k => Pending req (fun o => lift proj inj (k o))
       end).
Proof.
  induction m as [a|error|k IH|g k IH|e k IH|T req k IH]; intros s; simpl.
  - rewrite inj_proj. reflexivity.
  - rewrite inj_proj. reflexivity.
  - apply IH.
  - rewrite IH. cbv zeta. rewrite proj_inj, inj_inj. reflexivity.
  - rewrite IH. reflexivity.
  - rewrite inj_proj. reflexivity.
Qed.
End LiftedRuns.

(** ** Further properties of the answer store *)

Module AnswerExtras.
Import AnswerStore Scenario.

(** X1. Whatever the backend does, [submitAnswer] leaves the staged
    images, the held answer and result and [isProcessing] as they
    were; with images staged it ends with [isSubmitting] lowered; and
    it resolves exactly when it leaves no error in the store. *)
Theorem submitAnswer_invariants (backend : Backend) (missionId problemId : Z)
    (timeSpent : option Z) (st : AnswerState) :
  let r := exec backend (submitAnswer missionId problemId timeSpent) st in
  capturedImages (final r) = capturedImages st
  /\ currentAnswer (final r) = currentAnswer st
  /\ answerResult (final r) = answerResult st
  /\ isProcessing (final r) = isProcessing st
  /\ isSubmitting (final r) =
       (if decide (capturedImages st = []) then isSubmitting st else false)
  /\ ((exists answerId, outcome r = Resolved answerId)
      <-> error (final r) = None).
Proof.
  unfold submitAnswer. simpl.
  destruct (capturedImages st) as [|image images] eqn:Hstaged; simpl.
  - rewrite Hstaged. repeat split; try discriminate.
    intros [answerId H]. discriminate.
  - destruct (backend _ _) as [response|thrown]; simpl.
    + destruct (success_and_data response) as [d|]; simpl;
        rewrite Hstaged; repeat split; try discriminate; eauto.
      intros [answerId H]. discriminate.
    + rewrite Hstaged. repeat split; try discriminate.
      intros [answerId H]. discriminate.
Qed.

(** X2. With images staged [submitAnswer] sends one upload, carrying
    the files of the staged images in their order, and settles by its
    outcome: the answer id of an envelope with data; the message of an
    envelope without (or a fixed text if the message is empty), both
    thrown and recorded; a thrown value as it is, with its message (or
    a fixed text, if it is no [Error]) recorded. *)
Theorem submitAnswer_outcomes (backend : Backend) (missionId problemId : Z)
    (timeSpent : option Z) (st : AnswerState) :
  capturedImages st <> [] ->
  let req :=
    SubmitAnswer missionId problemId (map file (capturedImages st)) timeSpent in
  let r := exec backend (submitAnswer missionId problemId timeSpent) st in
  trace r = [NetCall req]
  /\ match backend _ req with
     | Fulfilled response =>
         match success_and_data response with
         | Some d =>
             outcome r = Resolved (answer_id d) /\ error (final r) = None
         | None =>
             let msg :=
               or_default (resp_message response) "답안 제출에 실패했습니다." in
             outcome r = Rejected (ErrorObj msg)
             /\ error (final r) = Some (mkAppError msg None)
         end
     | Failed thrown =>
         outcome r = Rejected thrown
         /\ error (final r) =
              Some (mkAppError
                      (error_message thrown "답안 제출 중 오류가 발생했습니다.")
                      None)
     end.
Proof.
  intros Hstaged. unfold submitAnswer. simpl.
  destruct (capturedImages st) as [|image images]; [congruence|]. simpl.
  destruct (backend _ _) as [response|thrown]; simpl.
  - destruct (success_and_data response) as [d|]; simpl; repeat split.
  - repeat split.
Qed.

Lemma submitAnswer_outcomes_witness :
  let st := with_capturedImages [photo "blob:a"; photo "blob:b"] initial in
  capturedImages st <> []
  /\ outcome (exec (Samples.refusing "") (submitAnswer 7 3 None) st) =
       Rejected (ErrorObj "답안 제출에 실패했습니다.").
Proof.
  intros st.
  assert (Hstaged : capturedImages st <> []) by (subst st; discriminate).
  split; [exact Hstaged|].
  destruct (submitAnswer_outcomes (Samples.refusing "") 7 3 None st Hstaged)
    as [_ Hcase].
  exact (proj1 Hcase).
Defined.

(** X3. Staging an image and then removing the position it was put at
    (the old length of the list) gives back the staged list; of the
    store only the error, which [addCapturedImage] clears, may have
    changed. *)
Theorem add_then_remove_last (image : CapturedImage) (st : AnswerState) :
  run (addCapturedImage image ;;
       removeCapturedImage (Z.of_nat (length (capturedImages st)))) st =
    mkRun (with_error None st) [] (Settle (Resolved tt)).
Proof.
  unfold addCapturedImage, removeCapturedImage, js_filter. simpl.
  rewrite AnswerProperties.filter_from_skips. simpl.
  rewrite length_app. simpl.
  rewrite decide_True by lia.
  rewrite Nat2Z.id, Nat.sub_0_r.
  rewrite take_app_length.
  rewrite drop_app_ge by lia.
  replace (S (length (capturedImages st)) - length (capturedImages st))%nat
    with 1%nat by lia.
  simpl. rewrite app_nil_r. destruct st; reflexivity.
Qed.

(** What a fetch sends and schedules depends on the backend alone. *)
Lemma getAnswerResult_trace_fixed (backend : Backend) (answerId : Z)
    (st st' : AnswerState) :
  trace (exec backend (getAnswerResult answerId) st) =
    trace (exec backend (getAnswerResult answerId) st').
Proof.
  unfold getAnswerResult. simpl.
  destruct (backend _ _) as [response|thrown]; simpl; [|reflexivity].
  destruct (success_and_data response) as [d|]; simpl; [|reflexivity].
  destruct (score_is_null (score (answer d))); reflexivity.
Qed.

(** X4. At the end of [getAnswerResult] and of [processAnswer] the
    store shows [isProcessing] exactly when the action has set the
    poll timer (5000 ms, same answer): the flag never stays raised
    without a poll to lower it, whatever the backend answered. *)
Theorem processing_flag_matches_timer (backend : Backend) (answerId : Z)
    (st : AnswerState) :
  let fetched := exec backend (getAnswerResult answerId) st in
  let processed := exec backend (processAnswer answerId) st in
  timers_of (trace fetched) =
    (if isProcessing (final fetched)
     then [(PollAnswerResult answerId, 5000)] else [])
  /\ timers_of (trace processed) =
       (if isProcessing (final processed)
        then [(PollAnswerResult answerId, 5000)] else []).
Proof.
  split.
  - unfold getAnswerResult. simpl.
    destruct (backend _ _) as [response|thrown]; simpl; [|reflexivity].
    destruct (success_and_data response) as [d|]; simpl; [|reflexivity].
    destruct (score_is_null (score (answer d))); reflexivity.
  - unfold processAnswer, getAnswerResult. simpl.
    destruct (backend _ (ProcessAnswer answerId)) as [response|thrown]; simpl;
      [|reflexivity].
    destruct (success response); simpl; [|reflexivity].
    destruct (backend _ (GetAnswerResult answerId)) as [reply|thrown]; simpl;
      [|reflexivity].
    destruct (success_and_data reply) as [d|]; simpl; [|reflexivity].
    destruct (score_is_null (score (answer d))); reflexivity.
Qed.

(** X5. [processAnswer] and [addAnswerImages] send their own request
    first and fetch the result of the same answer only if the backend
    took it (an envelope with [success]); refused or failed, they send
    nothing more.  Either ends with the flag it raised lowered again
    ([isProcessing] unless a poll is set, [isSubmitting] always), and
    resolves exactly when it leaves no error in the store. *)
Theorem result_fetched_when_accepted (backend : Backend) (answerId : Z)
    (images : list File) (st : AnswerState) :
  let taken {T} (o : ApiOutcome T) :=
    match o with Fulfilled response => success response | Failed _ => false end in
  let fetch := trace (exec backend (getAnswerResult answerId) st) in
  let processed := exec backend (processAnswer answerId) st in
  let added := exec backend (addAnswerImages answerId images) st in
  (trace processed =
     NetCall (ProcessAnswer answerId)
       :: (if taken (backend _ (ProcessAnswer answerId)) then fetch else [])
   /\ (outcome processed = Resolved tt <-> error (final processed) = None))
  /\ (trace added =
        NetCall (AddAnswerImages answerId images)
          :: (if taken (backend _ (AddAnswerImages answerId images))
              then fetch else [])
      /\ isSubmitting (final added) = false
      /\ capturedImages (final added) = capturedImages st
      /\ (outcome added = Resolved tt <-> error (final added) = None)).
Proof.
  cbv zeta. split.
  - unfold processAnswer, getAnswerResult. simpl.
    destruct (backend _ (ProcessAnswer answerId)) as [response|thrown]; simpl;
      [|repeat split; discriminate].
    destruct (success response); simpl; [|repeat split; discriminate].
    destruct (backend _ (GetAnswerResult answerId)) as [reply|thrown]; simpl;
      [|repeat split; discriminate].
    destruct (success_and_data reply) as [d|]; simpl;
      [|repeat split; discriminate].
    destruct (score_is_null (score (answer d))); repeat split.
  - unfold addAnswerImages, getAnswerResult. simpl.
    destruct (backend _ (AddAnswerImages answerId images))
      as [response|thrown]; simpl; [|repeat split; discriminate].
    destruct (success response); simpl; [|repeat split; discriminate].
    destruct (backend _ (GetAnswerResult answerId)) as [reply|thrown]; simpl;
      [|repeat split; discriminate].
    destruct (success_and_data reply) as [d|]; simpl;
      [|repeat split; discriminate].
    destruct (score_is_null (score (answer d))); repeat split.
Qed.

(** X6. A failed [getAnswerResult] (an exception of the client or an
    envelope without data) keeps the answer and result the store held,
    lowers [isProcessing] and records the message; a fetch that
    resolves leaves no error and a result in the store.  Staged images
    and [isSubmitting] are never touched. *)
Theorem getAnswerResult_settles (backend : Backend) (answerId : Z)
    (st : AnswerState) :
  let r := exec backend (getAnswerResult answerId) st in
  capturedImages (final r) = capturedImages st
  /\ isSubmitting (final r) = isSubmitting st
  /\ match outcome r with
     | Resolved _ =>
         error (final r) = None
         /\ is_Some (answerResult (final r))
         /\ is_Some (currentAnswer (final r))
     | Rejected thrown =>
         error (final r) =
           Some (mkAppError
                   (error_message thrown "답안 결과 조회 중 오류가 발생했습니다.")
                   None)
         /\ isProcessing (final r) = false
         /\ answerResult (final r) = answerResult st
         /\ currentAnswer (final r) = currentAnswer st
     end.
Proof.
  unfold getAnswerResult. simpl.
  destruct (backend _ _) as [response|thrown]; simpl; [|repeat split].
  destruct (success_and_data response) as [d|]; simpl; [|repeat split].
  destruct (score_is_null (score (answer d))); simpl; repeat split; eauto.
Qed.

Lemma releases_set_no_timer (images : list CapturedImage) :
  timers_of (map (fun image => RevokeObjectURL (preview image)) images) = [].
Proof. induction images as [|image images IH]; [reflexivity | exact IH]. Qed.

(** X7. [reset] does not call off a poll.  When a fetch has found no
    score and the store is reset while the timer waits, the timer
    still fires, fetches the same answer, and the answer and result it
    finds are written into the store that was reset. *)
Theorem reset_keeps_poll (answerId : Z) (st : AnswerState)
    (pending : ApiOutcome AnswerResultData)
    (response : APIResponse AnswerResultData) (d : AnswerResultData) :
  unscored pending = true ->
  success_and_data response = Some d ->
  let polling := poll_session answerId [pending] st in
  let wiped := run reset (store polling) in
  let late := drain [Fulfilled response] (waiting polling) (final wiped) in
  final wiped = initial
  /\ timers_of (trace wiped) = []
  /\ waiting polling = [(PollAnswerResult answerId, 5000)]
  /\ head (log late) = Some (NetCall (GetAnswerResult answerId))
  /\ currentAnswer (store late) = Some (answer d)
  /\ answerResult (store late) = Some (result d).
Proof.
  intros Hpending Hdata polling wiped late.
  assert (Hwaiting : waiting polling = [(PollAnswerResult answerId, 5000)]).
  { assert (Hall : Forall (fun o => unscored o = true) [pending])
      by (repeat constructor; exact Hpending).
    destruct (AnswerProperties.drain_unscored answerId [pending] [] Hall st 0)
      as (_ & Hwait & _).
    subst polling.
    rewrite (AnswerProperties.poll_session_drain answerId [pending] st 0)
      by discriminate.
    exact Hwait. }
  assert (Hwiped : final wiped = initial /\ timers_of (trace wiped) = []).
  { subst wiped. rewrite AnswerProperties.run_reset. cbn [final trace].
    split; [reflexivity | apply releases_set_no_timer]. }
  destruct Hwiped as [Hfinal Htimers].
  repeat split; try assumption.
  all: subst late; rewrite Hwaiting, Hfinal;
    unfold drain, fire, getAnswerResult; simpl; rewrite ?Hdata; simpl;
    try destruct (score_is_null (score (answer d))); reflexivity.
Qed.

Lemma reset_keeps_poll_witness :
  let d := mkAnswerResultData (a_result 85) (an_answer (ScoreNumber 85)) in
  let st := with_capturedImages [photo "blob:a"] initial in
  unscored (graded ScoreNull 0) = true
  /\ currentAnswer
       (store
          (drain [graded (ScoreNumber 85) 85]
             (waiting (poll_session 42 [graded ScoreNull 0] st))
             (final (run reset (store (poll_session 42 [graded ScoreNull 0] st))))))
     = Some (an_answer (ScoreNumber 85)).
Proof.
  intros d st. split; [reflexivity|].
  destruct (reset_keeps_poll 42 st (graded ScoreNull 0)
              (mkAPIResponse true "ok" (Some d)) d eq_refl eq_refl)
    as (_ & _ & _ & _ & Hanswer & _).
  exact Hanswer.
Defined.

(** X29. After [reset] nothing staged is left to submit: a [reset]
    followed by [submitAnswer] releases the previews that were staged
    and sends nothing; the submission is rejected with the validation
    message, in a store that is otherwise initial. *)
Theorem reset_then_submit_sends_nothing (backend : Backend)
    (missionId problemId : Z) (timeSpent : option Z) (st : AnswerState) :
  exec backend (reset ;; submitAnswer missionId problemId timeSpent) st =
    mkRun (with_error (Some (mkAppError images_required None)) initial)
      (map (fun image => RevokeObjectURL (preview image)) (capturedImages st))
      (Rejected (ErrorObj images_required)).
Proof.
  unfold mbind, async_bind. rewrite exec_bind. cbv zeta.
  pose proof (exec_settled backend reset st) as Hreset.
  rewrite AnswerProperties.run_reset in Hreset. cbn [outcome final trace] in Hreset.
  rewrite Hreset. cbn [outcome final trace].
  rewrite app_nil_r. reflexivity.
Qed.

End AnswerExtras.

(** ** Further properties of the mission store *)

Module MissionExtras.
Import MissionStore Scenario.

(** Neither refresh of the mission page ever rejects. *)
Lemma updateProgress_resolves (backend : Backend) (st : MissionState) :
  outcome (exec backend updateProgress st) = Resolved tt.
Proof.
  unfold updateProgress. simpl.
  destruct (currentMission st); simpl; [|reflexivity].
  destruct (backend _ _) as [response|thrown]; simpl; [|reflexivity].
  destruct (success_and_data response) as [d|]; simpl; [|reflexivity].
  destruct (current_problem d); reflexivity.
Qed.

Lemma getCurrentProblem_resolves (backend : Backend) (st : MissionState) :
  outcome (exec backend getCurrentProblem st) = Resolved tt.
Proof.
  unfold getCurrentProblem. simpl.
  destruct (currentMission st); simpl; [|reflexivity].
  destruct (backend _ _) as [response|thrown]; simpl; [|reflexivity].
  destruct (success_and_data response); reflexivity.
Qed.

(** X8. [updateProgress] is best effort: it always resolves and never
    touches the error, [isLoading], the mission or the timer.  With a
    mission held it sends one progress request for it; a snapshot that
    arrives becomes the progress and its current problem (or none) the
    current problem; an envelope without data changes nothing; an
    exception is logged to the console and changes nothing. *)
Theorem updateProgress_best_effort (backend : Backend) (st : MissionState) :
  let r := exec backend updateProgress st in
  outcome r = Resolved tt
  /\ (error (final r) = error st
      /\ isLoading (final r) = isLoading st
      /\ currentMission (final r) = currentMission st
      /\ timeSpent (final r) = timeSpent st
      /\ startTime (final r) = startTime st)
  /\ match currentMission st with
     | None => final r = st /\ trace r = []
     | Some mission =>
         let req := GetMissionProgress (mission_ident mission) in
         match backend _ req with
         | Fulfilled response =>
             trace r = [NetCall req]
             /\ match success_and_data response with
                | Some d =>
                    missionProgress (final r) = Some d
                    /\ currentProblem (final r) = current_problem d
                | None => final r = st
                end
         | Failed thrown =>
             trace r = [NetCall req; ConsoleError "진행 상황 업데이트 실패:" thrown]
             /\ final r = st
         end
     end.
Proof.
  unfold updateProgress. simpl.
  destruct (currentMission st) as [mission|] eqn:Hheld; simpl;
    [|rewrite Hheld; repeat split].
  destruct (backend _ _) as [response|thrown]; simpl;
    [|rewrite Hheld; repeat split].
  destruct (success_and_data response) as [d|]; simpl;
    [|rewrite Hheld; repeat split].
  destruct (current_problem d); simpl; rewrite Hheld; repeat split.
Qed.

(** X9. [getCurrentProblem] never rejects and never touches the
    mission, the progress, [isLoading] or the timer.  With a mission
    held, an envelope sets the current problem to its data, or to none
    when it has none, and leaves the error as it was; an exception is
    logged, recorded as the error and leaves the current problem as it
    was. *)
Theorem getCurrentProblem_settles (backend : Backend) (st : MissionState) :
  let r := exec backend getCurrentProblem st in
  outcome r = Resolved tt
  /\ (currentMission (final r) = currentMission st
      /\ missionProgress (final r) = missionProgress st
      /\ isLoading (final r) = isLoading st
      /\ timeSpent (final r) = timeSpent st
      /\ startTime (final r) = startTime st)
  /\ match currentMission st with
     | None => final r = st /\ trace r = []
     | Some mission =>
         let req := GetNextProblem (mission_ident mission) in
         match backend _ req with
         | Fulfilled response =>
             trace r = [NetCall req]
             /\ currentProblem (final r) = success_and_data response
             /\ error (final r) = error st
         | Failed thrown =>
             trace r = [NetCall req; ConsoleError "다음 문제 조회 실패:" thrown]
             /\ currentProblem (final r) = currentProblem st
             /\ error (final r) =
                  Some (mkAppError
                          (error_message thrown "문제 조회 중 오류가 발생했습니다.")
                          None)
         end
     end.
Proof.
  unfold getCurrentProblem. simpl.
  destruct (currentMission st) as [mission|] eqn:Hheld; simpl;
    [|rewrite Hheld; repeat split].
  destruct (backend _ _) as [response|thrown]; simpl;
    [|rewrite Hheld; repeat split].
  destruct (success_and_data response) as [d|]; simpl;
    rewrite Hheld; repeat split.
Qed.

(** X10. [startNewMission] sends one creation request, for the type
    given or for [daily] when none is given, and ends with [isLoading]
    lowered and the timer untouched.  When it rejects (exception, or
    envelope without data, whose message or a fixed text is thrown)
    the message is recorded and mission, problem and progress are what
    they were; when it resolves no error is left. *)
Theorem startNewMission_settles (backend : Backend)
    (missionType : option MissionType) (st : MissionState) :
  let req := StartMission (default DAILY missionType) in
  let r := exec backend (startNewMission missionType) st in
  trace r = [NetCall req]
  /\ (isLoading (final r) = false
      /\ timeSpent (final r) = timeSpent st
      /\ startTime (final r) = startTime st)
  /\ match outcome r with
     | Resolved _ => error (final r) = None /\ is_Some (currentMission (final r))
     | Rejected thrown =>
         error (final r) =
           Some (mkAppError
                   (error_message thrown "미션 시작 중 오류가 발생했습니다.") None)
         /\ currentMission (final r) = currentMission st
         /\ currentProblem (final r) = currentProblem st
         /\ missionProgress (final r) = missionProgress st
     end
  /\ match backend _ req with
     | Fulfilled response =>
         success_and_data response = None ->
         outcome r =
           Rejected (ErrorObj (or_default (resp_message response)
                                 "미션 시작에 실패했습니다."))
     | Failed thrown => outcome r = Rejected thrown
     end.
Proof.
  unfold startNewMission. simpl.
  destruct (backend _ _) as [response|thrown]; simpl; [|repeat split].
  destruct (success_and_data response) as [d|]; simpl; repeat split; eauto.
  discriminate.
Qed.

Lemma startNewMission_settles_witness :
  outcome (exec (Samples.refusing "Daily limit reached")
             (startNewMission None) initial) =
    Rejected (ErrorObj "Daily limit reached").
Proof.
  destruct (startNewMission_settles (Samples.refusing "Daily limit reached")
              None initial) as (_ & _ & _ & Hrefused).
  exact (Hrefused eq_refl).
Defined.

(** X11. A confirmed completion: with a mission held and an envelope
    that reports [completed], [completeMission] resolves with the
    returned mission as current mission, [isLoading] lowered and no
    error, and goes on to one progress request, for the id of the
    returned mission.  The current problem is then the one of the
    refreshed snapshot, and none when the refresh brings no snapshot. *)
Theorem completeMission_confirmed_flow (backend : Backend)
    (st : MissionState) (mission : Mission)
    (response : APIResponse CompleteMissionData) (d : CompleteMissionData) :
  currentMission st = Some mission ->
  backend _ (CompleteMission (mission_ident mission)) = Fulfilled response ->
  success_and_data response = Some d ->
  completed d = true ->
  let refresh := GetMissionProgress (mission_ident (done_mission d)) in
  let r := exec backend completeMission st in
  outcome r = Resolved tt
  /\ currentMission (final r) = Some (done_mission d)
  /\ isLoading (final r) = false
  /\ error (final r) = None
  /\ take 2 (trace r) =
       [NetCall (CompleteMission (mission_ident mission)); NetCall refresh]
  /\ currentProblem (final r) =
       match backend _ refresh with
       | Fulfilled snapshot =>
           match success_and_data snapshot with
           | Some progress => current_problem progress
           | None => None
           end
       | Failed _ => None
       end.
Proof.
  intros Hheld Hreply Hdata Hdone refresh r. subst r.
  rewrite (MissionProperties.completeMission_confirmed backend st mission
             response d Hheld Hreply Hdata Hdone).
  unfold updateProgress. simpl. subst refresh.
  destruct (backend _ (GetMissionProgress (mission_ident (done_mission d))))
    as [snapshot|thrown]; simpl; [|repeat split].
  destruct (success_and_data snapshot) as [progress|]; simpl; [|repeat split].
  destruct (current_problem progress); repeat split.
Qed.

Lemma completeMission_confirmed_flow_witness :
  let st := with_currentMission (Some (a_mission 5 5 IN_PROGRESS)) initial in
  let finished :=
    mkAPIResponse true "done"
      (Some (mkCompleteMissionData (a_mission 5 5 COMPLETED) true)) in
  let backend :=
    mission_backend (Failed NonError) (Failed NonError)
      (Fulfilled (mkAPIResponse true "ok" (Some (Samples.a_progress 5 5 None))))
      (Fulfilled finished) (Failed NonError) in
  currentMission (final (exec backend completeMission st)) =
    Some (a_mission 5 5 COMPLETED).
Proof.
  intros st finished backend.
  destruct (completeMission_confirmed_flow backend st
              (a_mission 5 5 IN_PROGRESS) finished
              (mkCompleteMissionData (a_mission 5 5 COMPLETED) true)
              eq_refl eq_refl eq_refl eq_refl) as (_ & Hmission & _).
  exact Hmission.
Defined.

(** X12. When [completeMission] rejects, it has sent the completion
    request and nothing else, has recorded the message of what was
    thrown, has lowered [isLoading] and has left mission, problem and
    progress as they were.  It rejects on an exception of the client
    and on a mission reported unfinished, then with the fixed message. *)
Theorem completeMission_rejections (backend : Backend) (st : MissionState)
    (mission : Mission) :
  currentMission st = Some mission ->
  let req := CompleteMission (mission_ident mission) in
  let r := exec backend completeMission st in
  match outcome r with
  | Resolved _ => True
  | Rejected thrown =>
      trace r = [NetCall req]
      /\ error (final r) =
           Some (mkAppError
                   (error_message thrown "미션 완료 처리 중 오류가 발생했습니다.")
                   None)
      /\ isLoading (final r) = false
      /\ currentMission (final r) = currentMission st
      /\ currentProblem (final r) = currentProblem st
      /\ missionProgress (final r) = missionProgress st
  end
  /\ match backend _ req with
     | Fulfilled response =>
         match success_and_data response with
         | Some d =>
             completed d = false -> outcome r = Rejected (ErrorObj not_finished)
         | None => True
         end
     | Failed thrown => outcome r = Rejected thrown
     end.
Proof.
  intros Hheld. unfold completeMission. simpl. rewrite Hheld. simpl.
  destruct (backend _ (CompleteMission (mission_ident mission)))
    as [response|thrown]; simpl; [|rewrite Hheld; repeat split].
  destruct (success_and_data response) as [d|]; simpl; [|repeat split].
  destruct (completed d); simpl.
  - split; [|discriminate].
    unfold updateProgress. simpl.
    destruct (backend _ (GetMissionProgress (mission_ident (done_mission d))))
      as [snapshot|thrown]; simpl; [|exact I].
    destruct (success_and_data snapshot) as [progress|]; simpl; [|exact I].
    destruct (current_problem progress); exact I.
  - rewrite Hheld. repeat split.
Qed.

Lemma completeMission_rejections_witness :
  let st := with_currentMission (Some (a_mission 4 5 IN_PROGRESS)) initial in
  let backend :=
    mission_backend (Failed NonError) (Failed NonError) (Failed NonError)
      (Fulfilled (mkAPIResponse true "not yet"
         (Some (mkCompleteMissionData (a_mission 4 5 IN_PROGRESS) false))))
      (Failed NonError) in
  outcome (exec backend completeMission st) = Rejected (ErrorObj not_finished).
Proof.
  intros st backend.
  destruct (completeMission_rejections backend st (a_mission 4 5 IN_PROGRESS)
              eq_refl) as [_ Hcase].
  exact (Hcase eq_refl).
Defined.

(** X13. Two timed intervals add up: started at [t0], stopped at
    [t1], started again at [t2] and stopped at [t3] (start instants
    past the epoch), the total has grown by the whole seconds of each
    interval and no start instant is left.  Whole seconds are counted
    per interval: the growth, in milliseconds, never exceeds the time
    the two intervals span and stays within two seconds of it. *)
Theorem timer_intervals_add (st : MissionState) (t0 t1 t2 t3 : Z) :
  t0 <> 0 ->
  t2 <> 0 ->
  let counted := (t1 - t0) / 1000 + (t3 - t2) / 1000 in
  run (startTimer t0 ;; stopTimer t1 ;; startTimer t2 ;; stopTimer t3) st =
    mkRun (with_startTime None (with_timeSpent (timeSpent st + counted) st))
      [] (Settle (Resolved tt))
  /\ (t1 - t0) + (t3 - t2) - 2000 < 1000 * counted <= (t1 - t0) + (t3 - t2).
Proof.
  intros H0 H2 counted. split.
  - unfold startTimer, stopTimer. simpl.
    apply Z.eqb_neq in H0. apply Z.eqb_neq in H2.
    rewrite H0. simpl. rewrite H2. simpl.
    subst counted. rewrite Z.add_assoc. reflexivity.
  - subst counted.
    pose proof (Z.div_mod (t1 - t0) 1000 ltac:(lia)).
    pose proof (Z.mod_pos_bound (t1 - t0) 1000 ltac:(lia)).
    pose proof (Z.div_mod (t3 - t2) 1000 ltac:(lia)).
    pose proof (Z.mod_pos_bound (t3 - t2) 1000 ltac:(lia)).
    lia.
Qed.

Lemma timer_intervals_add_witness :
  timeSpent
    (final (run (startTimer 1000 ;; stopTimer 3500 ;;
                 startTimer 10000 ;; stopTimer 11999) initial)) = 3.
Proof.
  assert (H0 : 1000 <> 0) by lia.
  assert (H2 : 10000 <> 0) by lia.
  destruct (timer_intervals_add initial 1000 3500 10000 11999 H0 H2)
    as [Hrun _].
  rewrite Hrun. reflexivity.
Defined.

(** X14. Reading and stopping agree: in every store, what
    [getTimeSpent] returns at an instant is the total that [stopTimer]
    called at that instant records. *)
Theorem getTimeSpent_is_total_at_stop (st : MissionState) (now : Z) :
  returned (outcome (run (getTimeSpent now) st)) =
    Some (timeSpent (final (run (stopTimer now) st))).
Proof.
  unfold getTimeSpent, stopTimer. simpl.
  destruct (truthy (startTime st)); reflexivity.
Qed.

(** X15. [stopTimer] is idempotent: in every store a second call, at
    whatever instant, changes nothing the first has not done. *)
Theorem stopTimer_idempotent (st : MissionState) (now later : Z) :
  run (stopTimer now ;; stopTimer later) st = run (stopTimer now) st.
Proof.
  unfold stopTimer. simpl.
  destruct (truthy (startTime st)) as [t0|] eqn:Hrunning; simpl.
  - reflexivity.
  - rewrite Hrunning. reflexivity.
Qed.

(** X16. [startTimer] overwrites the start instant: called at [t1]
    (past the epoch) on a timer that may be running, it drops the
    interval that was running uncounted, and a stop at [t2] adds the
    whole seconds from [t1] only. *)
Theorem startTimer_drops_running_interval (st : MissionState) (t1 t2 : Z) :
  t1 <> 0 ->
  run (startTimer t1 ;; stopTimer t2) st =
    mkRun
      (with_startTime None
         (with_timeSpent (timeSpent st + (t2 - t1) / 1000) st))
      [] (Settle (Resolved tt)).
Proof.
  intros H1. unfold startTimer, stopTimer. simpl.
  apply Z.eqb_neq in H1. rewrite H1. reflexivity.
Qed.

Lemma startTimer_drops_running_interval_witness :
  timeSpent
    (final (run (startTimer 50000 ;; stopTimer 52000)
              (with_startTime (Some 1000) initial))) = 2.
Proof.
  assert (H1 : 50000 <> 0) by lia.
  rewrite (startTimer_drops_running_interval
             (with_startTime (Some 1000) initial) 50000 52000 H1).
  reflexivity.
Defined.

(** X17. The start instant 0 is not seen: the store tests the start
    instant for truth, so after a [startTimer] that read the clock at
    0 a [stopTimer] at any instant changes nothing (the instant stays
    recorded, nothing is added), and [getTimeSpent] returns the bare
    total. *)
Theorem epoch_start_not_counted (st : MissionState) (now : Z) :
  let started := final (run (startTimer 0) st) in
  run (stopTimer now) started = mkRun started [] (Settle (Resolved tt))
  /\ startTime started = Some 0
  /\ returned (outcome (run (getTimeSpent now) started)) = Some (timeSpent st).
Proof. repeat split. Qed.

End MissionExtras.

(** ** Properties of the pages *)

Module PageExtras.
Import Scenario.

(** X18. The result page after the first fetch.  On a store that holds
    no result yet, a fetch that fails leaves the error in the store but
    the page on its grading screen: the error screen is only reached
    once a result is held.  A fetch that resolves shows the grading
    screen while the answer has no score, and the result otherwise. *)
Theorem results_view_after_fetch (backend : Backend) (answerId : Z)
    (param : string) (st : AnswerStore.AnswerState) :
  param <> "" ->
  AnswerStore.answerResult st = None ->
  let r := exec backend (AnswerStore.getAnswerResult answerId) st in
  match outcome r with
  | Rejected _ =>
      is_Some (AnswerStore.error (final r))
      /\ ResultsPage.render (Some param) (final r) = ResultsPage.Grading
  | Resolved _ =>
      match AnswerStore.answerResult (final r) with
      | Some answerResult =>
          ResultsPage.render (Some param) (final r) =
            if AnswerStore.isProcessing (final r)
            then ResultsPage.Grading
            else ResultsPage.Graded answerResult
      | None => False
      end
  end.
Proof.
  intros Hparam Hnone.
  unfold AnswerStore.getAnswerResult, ResultsPage.render. simpl.
  rewrite decide_False by exact Hparam.
  destruct (backend _ _) as [response|thrown]; simpl.
  - destruct (success_and_data response) as [d|]; simpl.
    + destruct (score_is_null (score (answer d))); reflexivity.
    + rewrite Hnone. split; [eauto | reflexivity].
  - rewrite Hnone. split; [eauto | reflexivity].
Qed.

Lemma results_view_after_fetch_witness :
  ResultsPage.render (Some "42")
    (final (exec offline (AnswerStore.getAnswerResult 42) AnswerStore.initial))
    = ResultsPage.Grading.
Proof.
  assert (Hparam : "42" <> "") by discriminate.
  pose proof (results_view_after_fetch offline 42 "42" AnswerStore.initial
                Hparam eq_refl) as Hview.
  exact (proj2 Hview).
Defined.

(** X19. The colour and the message of a score go together: green
    with the top message, yellow with the second, red with one of the
    two lower ones; and red is shown exactly below 70. *)
Theorem score_colour_matches_message (score : Z) :
  (ResultsPage.getScoreColor score = "text-green-400"
     <-> ResultsPage.getScoreMessage score = "훌륭해요! 🎉")
  /\ (ResultsPage.getScoreColor score = "text-yellow-400"
        <-> ResultsPage.getScoreMessage score = "잘했어요! 👍")
  /\ (ResultsPage.getScoreColor score = "text-red-400"
        <-> ResultsPage.getScoreMessage score = "좋은 시도예요! 💪"
            \/ ResultsPage.getScoreMessage score = "다시 한번 도전해봐요! 📚")
  /\ (ResultsPage.getScoreColor score = "text-red-400" <-> score < 70).
Proof.
  unfold ResultsPage.getScoreColor, ResultsPage.getScoreMessage.
  destruct (Z.leb_spec 90 score); [|destruct (Z.leb_spec 70 score);
    [|destruct (Z.leb_spec 50 score)]];
    repeat split; intros; try reflexivity; try discriminate; try lia; eauto;
    match goal with H : _ \/ _ |- _ => destruct H; discriminate end.
Qed.

(** X20. [checkNextProblem] with a mission of the render always sets
    [hasNextProblem] to [true]: the two store actions it awaits never
    reject, so its [catch] is never entered, whatever the backend
    answers and whether a problem is left or not. *)
Theorem checkNextProblem_always_true (backend : Backend)
    (st : MissionStore.MissionState) (mission : Mission) :
  outcome (exec backend (ResultsPage.checkNextProblem (Some mission)) st) =
    Resolved (Some true).
Proof.
  unfold ResultsPage.checkNextProblem, mbind, async_bind.
  rewrite exec_try_catch, !exec_bind. cbv zeta.
  rewrite MissionExtras.updateProgress_resolves. cbn [outcome final].
  rewrite exec_bind. cbv zeta.
  rewrite MissionExtras.getCurrentProblem_resolves. reflexivity.
Qed.

(** X21. [handleCompleteMission] never rejects: it navigates to the
    dashboard exactly when [completeMission] resolves, and stays on
    the page, with the store as [completeMission] left it, when that
    rejects. *)
Theorem handleCompleteMission_navigates (backend : Backend)
    (st : MissionStore.MissionState) (mission : Mission) :
  let completion := exec backend MissionStore.completeMission st in
  let r := exec backend (ResultsPage.handleCompleteMission (Some mission)) st in
  outcome r =
    Resolved (match outcome completion with
              | Resolved _ => Some "/dashboard"
              | Rejected _ => None
              end)
  /\ final r = final completion.
Proof.
  unfold ResultsPage.handleCompleteMission, mbind, async_bind.
  cbv zeta. rewrite exec_try_catch, exec_bind. cbv zeta.
  destruct (exec backend MissionStore.completeMission st)
    as [st' es [[]|thrown]]; split; reflexivity.
Qed.

(** The stores sit in the mission page like fields in a record. *)
Lemma mission_place_get (a : MissionStore.MissionState)
    (s : MissionPage.PageState) :
  MissionPage.missionStore (MissionPage.with_missionStore a s) = a.
Proof. reflexivity. Qed.

Lemma mission_place_set (a b : MissionStore.MissionState)
    (s : MissionPage.PageState) :
  MissionPage.with_missionStore a (MissionPage.with_missionStore b s) =
    MissionPage.with_missionStore a s.
Proof. reflexivity. Qed.

Lemma mission_place_id (s : MissionPage.PageState) :
  MissionPage.with_missionStore (MissionPage.missionStore s) s = s.
Proof. destruct s; reflexivity. Qed.

Lemma answer_place_get (a : AnswerStore.AnswerState)
    (s : MissionPage.PageState) :
  MissionPage.answerStore (MissionPage.with_answerStore a s) = a.
Proof. reflexivity. Qed.

Lemma answer_place_set (a b : AnswerStore.AnswerState)
    (s : MissionPage.PageState) :
  MissionPage.with_answerStore a (MissionPage.with_answerStore b s) =
    MissionPage.with_answerStore a s.
Proof. reflexivity. Qed.

Lemma answer_place_id (s : MissionPage.PageState) :
  MissionPage.with_answerStore (MissionPage.answerStore s) s = s.
Proof. destruct s; reflexivity. Qed.

(** X22. A change of problem starts afresh.  The effect of the mission
    page, run for a problem at the instant [now], leaves the total at
    0 with [now] as start instant, puts the answer store back to its
    initial state, and releases the preview of every image that was
    staged, once each and in order; the rest of the page is untouched.
    Without a problem the effect does nothing. *)
Theorem problemEffect_fresh_start (page : MissionPage.PageState)
    (problem : Problem) (now : Z) :
  run (MissionPage.problemEffect (Some problem) now) page =
    mkRun
      (MissionPage.mkPageState
         (MissionStore.with_startTime (Some now)
            (MissionStore.with_timeSpent 0 (MissionPage.missionStore page)))
         AnswerStore.initial
         (MissionPage.showSubmitConfirm page)
         (MissionPage.isSubmittingAnswer page))
      (map (fun image => RevokeObjectURL (preview image))
         (AnswerStore.capturedImages (MissionPage.answerStore page)))
      (Settle (Resolved tt))
  /\ run (MissionPage.problemEffect None now) page =
       mkRun page [] (Settle (Resolved tt)).
Proof.
  split; [|reflexivity].
  unfold MissionPage.problemEffect, mbind, async_bind.
  rewrite !run_bind. unfold MissionPage.on_mission, MissionPage.on_answers.
  rewrite (run_lift _ _ mission_place_get mission_place_set mission_place_id
             MissionStore.resetTimer page).
  cbn [run MissionStore.resetTimer set final trace outcome].
  rewrite run_bind.
  match goal with
  | |- context [run (lift _ _ (MissionStore.startTimer now)) ?s] =>
      rewrite (run_lift _ _ mission_place_get mission_place_set
                 mission_place_id (MissionStore.startTimer now) s)
  end.
  cbn [run MissionStore.startTimer set final trace outcome].
  match goal with
  | |- context [run (lift _ _ AnswerStore.reset) ?s] =>
      rewrite (run_lift _ _ answer_place_get answer_place_set
                 answer_place_id AnswerStore.reset s)
  end.
  rewrite AnswerProperties.run_reset.
  destruct page as [timer answers confirm submitting]. destruct timer.
  reflexivity.
Qed.

(** X23. [handleSubmitAnswer] does nothing at all when the render has
    no mission, no problem or no staged image: no store is touched,
    the timer keeps running, nothing is sent, nowhere is navigated. *)
Theorem handleSubmitAnswer_guard (backend : Backend)
    (page : MissionPage.PageState) (currentMission : option Mission)
    (currentProblem : option Problem) (capturedImages : list CapturedImage)
    (t_stop t_read t_restart : Z) :
  currentMission = None \/ currentProblem = None \/ capturedImages = [] ->
  exec backend
    (MissionPage.handleSubmitAnswer currentMission currentProblem
       capturedImages t_stop t_read t_restart) page =
    mkRun page [] (Resolved None).
Proof.
  intros [Hmission|[Hproblem|Himages]]; subst;
    unfold MissionPage.handleSubmitAnswer.
  - reflexivity.
  - destruct currentMission; reflexivity.
  - destruct currentMission, currentProblem; reflexivity.
Qed.

Lemma handleSubmitAnswer_guard_witness :
  exec offline
    (MissionPage.handleSubmitAnswer (Some (a_mission 2 5 IN_PROGRESS))
       (Some (a_problem 3)) [] 5000 5000 6000)
    (Samples.a_running_page 1000) =
    mkRun (Samples.a_running_page 1000) [] (Resolved None).
Proof.
  apply (handleSubmitAnswer_guard offline (Samples.a_running_page 1000)
           (Some (a_mission 2 5 IN_PROGRESS)) (Some (a_problem 3)) []
           5000 5000 6000).
  right. right. reflexivity.
Defined.



(** X25. [handleStartMission] of the dashboard never rejects and ends
    with [isStartingMission] lowered.  It navigates only when
    [startNewMission] resolved and the render it was created in
    already held a mission, and then to that mission's page, not to
    the page of the mission just started; from a render without a
    mission it navigates nowhere. *)
Theorem handleStartMission_uses_render_mission (backend : Backend)
    (page : DashboardPage.PageState) (currentMission : option Mission)
    (missionType : option MissionType) :
  let started :=
    exec backend (MissionStore.startNewMission missionType)
      (DashboardPage.missionStore page) in
  let r :=
    exec backend (DashboardPage.handleStartMission currentMission missionType)
      page in
  outcome r =
    Resolved (match outcome started, currentMission with
              | Resolved _, Some shown =>
                  Some ("/mission/" +:+ pretty (mission_ident shown))
              | _, _ => None
              end)
  /\ DashboardPage.missionStore (final r) = final started
  /\ DashboardPage.isStartingMission (final r) = false.
Proof.
  unfold DashboardPage.handleStartMission, DashboardPage.on_mission,
    MissionStore.startNewMission.
  simpl.
  destruct (backend _ _) as [response|thrown]; simpl; [|repeat split].
  destruct (success_and_data response) as [d|]; simpl; [|repeat split].
  destruct currentMission; repeat split.
Qed.

End PageExtras.

(** ** Properties of the upload forms *)

Module FormExtras.
Import ApiClient.

Lemma appended_parts {A} (part : A -> string * FormValue) (items : list A) :
  forall formData : FormData,
    fold_left (fun formData item => append (part item).1 (part item).2 formData)
      items formData =
    formData ++ map part items.
Proof.
  induction items as [|item items IH]; intros formData; simpl.
  - rewrite app_nil_r. reflexivity.
  - rewrite IH. unfold append. rewrite <- app_assoc.
    destruct (part item). reflexivity.
Qed.

Lemma get_all_cons (name key : string) (value : FormValue)
    (formData : FormData) :
  get_all name ((key, value) :: formData) =
    if decide (key = name) then value :: get_all name formData
    else get_all name formData.
Proof. unfold get_all. simpl. destruct (decide (key = name)); reflexivity. Qed.

Lemma get_all_images (name : string) (images : list File) :
  get_all name (map (fun image => ("images", FormFile image)) images) =
    if decide ("images" = name) then map FormFile images else [].
Proof.
  induction images as [|image images IH].
  - destruct (decide ("images" = name)); reflexivity.
  - cbn [map]. rewrite get_all_cons, IH.
    destruct (decide ("images" = name)); reflexivity.
Qed.

(** The parts of the submission form, written out. *)
Lemma submitAnswer_form_closed (missionId problemId : Z)
    (images : list File) (timeSpent : option Z) :
  submitAnswer_form missionId problemId images timeSpent =
    [("mission_id", FormText (pretty missionId));
     ("problem_id", FormText (pretty problemId))]
    ++ match timeSpent with
       | Some t => [("time_spent", FormText (pretty t))]
       | None => []
       end
    ++ map (fun image => ("images", FormFile image)) images.
Proof.
  unfold submitAnswer_form.
  rewrite (appended_parts (fun image => ("images", FormFile image))).
  destruct timeSpent; reflexivity.
Qed.

Lemma get_all_submitAnswer_form (name : string) (missionId problemId : Z)
    (images : list File) (timeSpent : option Z) :
  get_all name (submitAnswer_form missionId problemId images timeSpent) =
    (if decide ("mission_id" = name)
     then [FormText (pretty missionId)] else [])
    ++ (if decide ("problem_id" = name)
        then [FormText (pretty problemId)] else [])
    ++ match timeSpent with
       | Some t =>
           if decide ("time_spent" = name) then [FormText (pretty t)] else []
       | None => []
       end
    ++ (if decide ("images" = name) then map FormFile images else []).
Proof.
  rewrite submitAnswer_form_closed.
  destruct timeSpent; cbn [app]; rewrite !get_all_cons, get_all_images;
    repeat (destruct (decide _)); reflexivity.
Qed.

(** X26. The form [submitAnswer] uploads: the mission id, the problem
    id, the time spent if one was given (a time of 0 is sent like any
    other) and then one [images] part per file, in the order of the
    list.  Read back by name, the form gives the files unchanged and
    in order, and one or no [time_spent] field. *)
Theorem submitAnswer_form_parts (missionId problemId : Z)
    (images : list File) (timeSpent : option Z) :
  let formData := submitAnswer_form missionId problemId images timeSpent in
  formData =
    [("mission_id", FormText (pretty missionId));
     ("problem_id", FormText (pretty problemId))]
    ++ match timeSpent with
       | Some t => [("time_spent", FormText (pretty t))]
       | None => []
       end
    ++ map (fun image => ("images", FormFile image)) images
  /\ get_all "images" formData = map FormFile images
  /\ get_all "time_spent" formData =
       match timeSpent with
       | Some t => [FormText (pretty t)]
       | None => []
       end
  /\ length formData =
       (2 + match timeSpent with Some _ => 1 | None => 0 end
        + length images)%nat.
Proof.
  intros formData.
  assert (Hparts := submitAnswer_form_closed missionId problemId images
                      timeSpent).
  fold formData in Hparts.
  split; [exact Hparts|]. subst formData.
  split; [|split].
  - rewrite get_all_submitAnswer_form. destruct timeSpent; simpl;
      rewrite ?app_nil_r; reflexivity.
  - rewrite get_all_submitAnswer_form. destruct timeSpent; reflexivity.
  - rewrite Hparts, !length_app, length_map. destruct timeSpent; simpl; lia.
Qed.

(** X27. Nothing of a submission is lost in its form: two calls of
    [submitAnswer] that build the same form had the same mission id,
    problem id, files and time spent. *)
Theorem submitAnswer_form_inj (missionId problemId missionId' problemId' : Z)
    (images images' : list File) (timeSpent timeSpent' : option Z) :
  submitAnswer_form missionId problemId images timeSpent =
    submitAnswer_form missionId' problemId' images' timeSpent' ->
  missionId = missionId' /\ problemId = problemId'
  /\ images = images' /\ timeSpent = timeSpent'.
Proof.
  intros Hsame.
  rewrite !submitAnswer_form_closed in Hsame. simpl in Hsame.
  injection Hsame as Hmission Hproblem Hrest.
  apply (inj pretty) in Hmission. apply (inj pretty) in Hproblem.
  assert (Hfiles : forall l l' : list File,
            map (fun image => ("images", FormFile image)) l =
              map (fun image => ("images", FormFile image)) l' -> l = l').
  { induction l as [|x l IH]; intros [|x' l'] Hmap; simpl in Hmap;
      try discriminate; [reflexivity|].
    injection Hmap as Hx Hl. rewrite (IH l' Hl), Hx. reflexivity. }
  destruct timeSpent as [t|], timeSpent' as [t'|]; simpl in Hrest.
  - injection Hrest as Ht Himages. apply (inj pretty) in Ht.
    apply Hfiles in Himages. subst. repeat split.
  - destruct images'; simpl in Hrest; discriminate.
  - destruct images; simpl in Hrest; discriminate.
  - apply Hfiles in Hrest. subst. repeat split.
Qed.

Lemma submitAnswer_form_inj_witness :
  (7 = 7 /\ 3 = 3
   /\ [mkFile "page.jpg" 2048] = [mkFile "page.jpg" 2048]
   /\ Some 0 = Some 0).
Proof.
  apply (submitAnswer_form_inj 7 3 7 3 [mkFile "page.jpg" 2048]
           [mkFile "page.jpg" 2048] (Some 0) (Some 0)).
  reflexivity.
Defined.

(** X28. What [submitAnswer] of the answer store puts on the wire.
    With nothing staged no form is sent.  Otherwise exactly one form
    is sent, whatever the backend answers: it names the mission and
    the problem of the call, holds the file of every staged image in
    staging order, and the time spent if the caller gave one. *)
Theorem submitAnswer_sends_staged_files (backend : Backend)
    (missionId problemId : Z) (timeSpent : option Z)
    (st : AnswerStore.AnswerState) :
  let r :=
    exec backend (AnswerStore.submitAnswer missionId problemId timeSpent) st in
  match forms_sent (trace r) with
  | [] => AnswerStore.capturedImages st = []
  | [formData] =>
      AnswerStore.capturedImages st <> []
      /\ get_all "mission_id" formData = [FormText (pretty missionId)]
      /\ get_all "problem_id" formData = [FormText (pretty problemId)]
      /\ get_all "images" formData =
           map (fun image => FormFile (file image))
             (AnswerStore.capturedImages st)
      /\ get_all "time_spent" formData =
           match timeSpent with
           | Some t => [FormText (pretty t)]
           | None => []
           end
  | _ => False
  end.
Proof.
  cbv zeta. unfold AnswerStore.submitAnswer. simpl.
  destruct (AnswerStore.capturedImages st) as [|image images] eqn:Hstaged.
  - reflexivity.
  - simpl.
    assert (Hform : forall rest : list Effect,
              forms_sent
                (NetCall (SubmitAnswer missionId problemId
                            (map file (image :: images)) timeSpent) :: rest) =
                submitAnswer_form missionId problemId
                  (map file (image :: images)) timeSpent :: forms_sent rest)
      by reflexivity.
    assert (Hread :
              let formData :=
                submitAnswer_form missionId problemId
                  (map file (image :: images)) timeSpent in
              get_all "mission_id" formData = [FormText (pretty missionId)]
              /\ get_all "problem_id" formData = [FormText (pretty problemId)]
              /\ get_all "images" formData =
                   map (fun image => FormFile (file image)) (image :: images)
              /\ get_all "time_spent" formData =
                   match timeSpent with
                   | Some t => [FormText (pretty t)]
                   | None => []
                   end).
    { cbv zeta. rewrite !get_all_submitAnswer_form.
      repeat split; destruct timeSpent; simpl;
        rewrite ?map_map, ?app_nil_r; reflexivity. }
    destruct (backend _ _) as [response|thrown]; simpl.
    + destruct (success_and_data response) as [d|]; simpl;
        (split; [discriminate | exact Hread]).
    + split; [discriminate | exact Hread].
Qed.

End FormExtras.
